(** * opencode-notifications: focus detection and the notification gate

    A shallow embedding of the TypeScript sources
    ([focus.ts], [index.ts], [notify.ts], [config.ts], [types.ts]) and the
    properties of the focus-detection strategy layer, the notification gate,
    the configuration loader and the message formatter.

    Layout: the embedding comes first (strings, JSON values, the
    asynchronous effect monad, then one block per source file); the
    theorems follow. *)

From Stdlib Require Import List NArith ZArith Bool Lia String Ascii.
From Stdlib Require Import Floats.SpecFloat.
Import ListNotations.

Set Implicit Arguments.
#[local] Set Warnings "-register-all".

(* ================================================================== *)
(** * JavaScript strings *)
(* ================================================================== *)

(** A JavaScript string is a sequence of UTF-16 code units; [length],
    [slice], [trim] and [===] all work on code units. *)
Module JsString.

Definition codeunit := N.
Definition jsstring := list codeunit.

(** An ASCII literal of the source as a JavaScript string. *)
Definition lit (s : string) : jsstring :=
  map N_of_ascii (list_ascii_of_string s).

Definition eqb (a b : jsstring) : bool :=
  if list_eq_dec N.eq_dec a b then true else false.

(** [a === b] where both sides have type [string | null]. *)
Definition strict_eqb (a b : option jsstring) : bool :=
  match a, b with
  | Some x, Some y => eqb x y
  | None, None => true
  | _, _ => false
  end.

(** A string is truthy iff it is not empty. *)
Definition truthy (s : jsstring) : bool :=
  match s with [] => false | _ :: _ => true end.

(** An optional string ([undefined] or [null] when absent) is truthy
    iff it is present and not empty. *)
Definition opt_truthy (o : option jsstring) : bool :=
  match o with Some s => truthy s | None => false end.

Definition SPACE : codeunit := 32%N.

(** ECMAScript WhiteSpace and LineTerminator code points: the class
    [\s] of a regular expression and the characters [trim] strips. *)
Definition isWhiteSpace (c : codeunit) : bool :=
  ((9 <=? c) && (c <=? 13) || (c =? 32) || (c =? 160) || (c =? 5760)
   || (8192 <=? c) && (c <=? 8202)
   || (c =? 8232) || (c =? 8233) || (c =? 8239) || (c =? 8287)
   || (c =? 12288) || (c =? 65279))%N.

(** [s.replace(/\s+/g, " ")]: every maximal run of whitespace becomes
    one space.  [inrun] tells that the previous code unit belonged to
    the run being replaced. *)
Fixpoint replace_ws_runs_from (inrun : bool) (s : jsstring) : jsstring :=
  match s with
  | [] => []
  | c :: r =>
      if isWhiteSpace c
      then (if inrun then replace_ws_runs_from true r
            else SPACE :: replace_ws_runs_from true r)
      else c :: replace_ws_runs_from false r
  end.

Definition replace_ws_runs (s : jsstring) : jsstring :=
  replace_ws_runs_from false s.

Fixpoint trimStart (s : jsstring) : jsstring :=
  match s with
  | [] => []
  | c :: r => if isWhiteSpace c then trimStart r else s
  end.

Fixpoint trimEnd (s : jsstring) : jsstring :=
  match s with
  | [] => []
  | c :: r =>
      match trimEnd r with
      | [] => if isWhiteSpace c then [] else [c]
      | r' => c :: r'
      end
  end.

(** [s.trim()] *)
Definition trim (s : jsstring) : jsstring := trimEnd (trimStart s).

(** [s.slice(start, end)] on integer arguments: a negative index counts
    from the end, both are clamped to [0, length]. *)
Definition clamp_index (len i : Z) : Z :=
  if (i <? 0)%Z then Z.max (len + i) 0 else Z.min i len.

Definition slice (s : jsstring) (start_ end_ : Z) : jsstring :=
  let len := Z.of_nat (List.length s) in
  let from := clamp_index len start_ in
  let to := clamp_index len end_ in
  if (to <=? from)%Z then []
  else firstn (Z.to_nat (to - from)) (skipn (Z.to_nat from) s).

(** [s.replace(/x/g, r)] for a single code unit [x]. *)
Definition replace_unit (x : codeunit) (r : jsstring) (s : jsstring)
  : jsstring :=
  flat_map (fun c => if (c =? x)%N then r else [c]) s.

(** The fields between whitespace code units (possibly empty), and the
    words: the non-empty ones. *)
Fixpoint fields (s : jsstring) : list jsstring :=
  match s with
  | [] => [[]]
  | c :: r =>
      if isWhiteSpace c then [] :: fields r
      else match fields r with
           | w :: ws => (c :: w) :: ws
           | [] => [[c]]
           end
  end.

Definition words (s : jsstring) : list jsstring :=
  filter truthy (fields s).

Definition unwords (ws : list jsstring) : jsstring :=
  match ws with
  | [] => []
  | w :: rest => w ++ flat_map (cons SPACE) rest
  end.

End JsString.
Import JsString.

Declare Scope js_scope.
Delimit Scope js_scope with js.
Notation "a +++ b" := (@app codeunit a b)
  (at level 60, right associativity) : js_scope.
Local Open Scope js_scope.

(* ================================================================== *)
(** * JSON values *)
(* ================================================================== *)

(** The values [JSON.parse] produces.  Numbers are IEEE 754 doubles.
    An object lists its members in source order. *)
Inductive json : Type :=
| JNull
| JBool (b : bool)
| JNumber (x : spec_float)
| JString (s : jsstring)
| JArray (items : list json)
| JObject (members : list (jsstring * json)).

Module Json.

(** The value bound to [key]; for a repeated key the last one wins. *)
Definition member (key : jsstring) (members : list (jsstring * json))
  : option json :=
  fold_left
    (fun found kv => if JsString.eqb (fst kv) key then Some (snd kv)
                     else found)
    members None.

(** [v?.key], where [None] stands for [undefined].  Only the keys the
    configuration loader reads are looked up this way, and none of them
    is a property of a primitive or of an array. *)
Definition get (v : option json) (key : jsstring) : option json :=
  match v with
  | Some (JObject members) => member key members
  | _ => None
  end.

(** [v ?? d] *)
Definition nullish (v : option json) (d : json) : json :=
  match v with
  | None | Some JNull => d
  | Some x => x
  end.

(** ToBoolean *)
Definition truthy (v : json) : bool :=
  match v with
  | JNull => false
  | JBool b => b
  | JNumber (S754_zero _) | JNumber S754_nan => false
  | JNumber _ => true
  | JString s => JsString.truthy s
  | JArray _ | JObject _ => true
  end.

End Json.

(* ================================================================== *)
(** * Child processes and asynchronous code *)
(* ================================================================== *)

(** Why a call of [execAsync] fails.  In the first four cases the call
    returns a promise and the promise rejects.  In the last, [exec]
    throws before it returns a promise: Node refuses the command line
    (it holds U+0000) or the process cannot be spawned at all. *)
Inductive ExecError : Type :=
| NonZeroExit (code : Z)
| TimedOut
| ExecutionError
| MissingBinary
| ExecThrew.

(** How a child process ends: the promise resolves with what the process
    wrote, or rejects. *)
Inductive ExecOutcome : Type :=
| Exited (stdout stderr : jsstring)
| Failed (e : ExecError).

(** What a [catch] clause can receive. *)
Inductive JsError : Type :=
| ExecRejected (e : ExecError)
| Thrown (message : jsstring).

(** The operating system as the plugin sees it: [respond cmd s] is how
    the child process running [cmd] ends when started in state [s], and
    the state afterwards. *)
Class Shell (Ext : Type) : Type :=
  respond : jsstring -> Ext -> ExecOutcome * Ext.

Section Effects.

Context {Ext : Type}.

(** The external state and the command lines handed to [exec] so far,
    oldest first. *)
Record World : Type := mkWorld {
  ext : Ext;
  executed : list jsstring
}.

(** A settled promise. *)
Inductive Settled (A : Type) : Type :=
| Fulfilled (a : A)
| Rejected (e : JsError).

(** An asynchronous computation, awaited to completion. *)
Definition Async (A : Type) : Type := World -> Settled A * World.

Definition ret {A} (a : A) : Async A := fun w => (Fulfilled a, w).

Definition throw {A} (e : JsError) : Async A := fun w => (Rejected A e, w).

Definition bind {A B} (c : Async A) (k : A -> Async B) : Async B :=
  fun w =>
    match c w with
    | (Fulfilled a, w') => k a w'
    | (Rejected _ e, w') => (Rejected B e, w')
    end.

(** [try { body } catch { handler }] *)
Definition try_catch {A} (body : Async A) (handler : JsError -> Async A)
  : Async A :=
  fun w =>
    match body w with
    | (Fulfilled a, w') => (Fulfilled a, w')
    | (Rejected _ e, w') => handler e w'
    end.

End Effects.

Arguments World : clear implicits.
Arguments Async : clear implicits.
Arguments Rejected {A} e.

Notation "x <- c ;; k" := (bind c (fun x => k))
  (at level 61, c at next level, right associativity).
Notation "c ;;; k" := (bind c (fun _ => k))
  (at level 61, right associativity).

(** The result of [promisify(exec)]. *)
Record ExecResult : Type := mkExecResult {
  stdout : jsstring;
  stderr : jsstring
}.

Section ChildProcess.

Context {Ext : Type} {shell : Shell Ext}.

(** [await execAsync(command, { timeout: 5000 })]: run the command;
    whether it ends within the timeout is the operating system's part.
    Awaited inside an asynchronous function, a call that throws and a
    promise that rejects both come out as a rejection; [ExecThrew] tells
    the first from the second. *)
Definition execAsync (command : jsstring) : Async Ext ExecResult :=
  fun w =>
    let (outcome, e') := respond command (ext w) in
    let w' := mkWorld e' (executed w ++ [command]) in
    match outcome with
    | Exited out err => (Fulfilled (mkExecResult out err), w')
    | Failed e => (Rejected (ExecRejected e), w')
    end.

(** Whether an error is what the call of [execAsync] itself threw, as
    opposed to a rejection of the promise it returned. *)
Definition thrown_by_call (e : JsError) : bool :=
  match e with
  | ExecRejected ExecThrew => true
  | _ => false
  end.

(** [call.then(() => {}).catch(() => {})]: the handlers are attached to
    the promise the call returns, so a rejection of that promise is
    swallowed, and what the call itself throws is not. *)
Definition then_catch {A} (call : Async Ext A) : Async Ext unit :=
  fun w =>
    match call w with
    | (Fulfilled _, w') => (Fulfilled tt, w')
    | (Rejected e, w') =>
        if thrown_by_call e then (Rejected e, w') else (Fulfilled tt, w')
    end.

End ChildProcess.

(* ================================================================== *)
(** * types.ts *)
(* ================================================================== *)

(** [EventType] *)
Inductive EventType : Type := complete | error | permission | question.

Definition EventType_eqb (a b : EventType) : bool :=
  match a, b with
  | complete, complete | error, error
  | permission, permission | question, question => true
  | _, _ => false
  end.

(** [NotificationContent] *)
Record NotificationContent : Type := mkContent {
  title : jsstring;
  body : jsstring;
  icon : jsstring
}.

(** [EventsConfig], [SoundConfig], [NotificationConfig].  The declared
    type of every leaf is [boolean], but the loader stores whatever the
    parsed file holds there, so a leaf is a JSON value. *)
Record EventsConfig : Type := mkEvents {
  ev_complete : json;
  ev_error : json;
  ev_permission : json;
  ev_question : json
}.

Record SoundConfig : Type := mkSound { enabled : json }.

Record NotificationConfig : Type := mkConfig {
  events : EventsConfig;
  sound : SoundConfig
}.

(** [FocusDetector]: the interface the detectors implement. *)
Record FocusDetector (Ext : Type) : Type := mkDetector {
  name : jsstring;
  init : Async Ext (option jsstring);
  isTerminalFocused : jsstring -> Async Ext bool
}.

(* ================================================================== *)
(** * focus.ts *)
(* ================================================================== *)

Section Focus.

Context {Ext : Type} {shell : Shell Ext}.

(** [runCommand]: the trimmed standard output, or [null] ([None]). *)
Definition runCommand (command : jsstring) : Async Ext (option jsstring) :=
  try_catch
    (r <- execAsync command ;;
     ret (Some (trim (stdout r))))
    (fun _ => ret None).

(** [commandExists] *)
Definition commandExists (cmd : jsstring) : Async Ext bool :=
  result <- runCommand (lit "which " +++ cmd) ;;
  ret (match result with
       | Some s => (0 <? List.length s)%nat
       | None => false
       end).

Definition xdotool_getactivewindow : jsstring :=
  lit "xdotool getactivewindow".

(** [class X11FocusDetector] *)
Definition X11FocusDetector : FocusDetector Ext := {|
  name := lit "X11 (xdotool)";
  init :=
    found <- commandExists (lit "xdotool") ;;
    if negb found then ret None
    else runCommand xdotool_getactivewindow;
  isTerminalFocused := fun terminalId =>
    currentWindow <- runCommand xdotool_getactivewindow ;;
    ret (strict_eqb currentWindow (Some terminalId))
|}.

(** The two multiplexer queries for pane [paneId]. *)
Definition tmux_display_message (paneId format : jsstring) : jsstring :=
  lit "tmux display-message -t " +++ paneId +++ lit " -p '#{"
      +++ format +++ lit "}'".

Definition tmux_session_attached (paneId : jsstring) : jsstring :=
  tmux_display_message paneId (lit "session_attached").

Definition tmux_window_active (paneId : jsstring) : jsstring :=
  tmux_display_message paneId (lit "window_active").

(** [class TmuxFocusDetector] *)
Definition TmuxFocusDetector (paneId : jsstring)
           (innerDetector : FocusDetector Ext) : FocusDetector Ext := {|
  name := lit "Tmux";
  init :=
    found <- commandExists (lit "tmux") ;;
    if negb found then init innerDetector
    else init innerDetector;
  isTerminalFocused := fun terminalId =>
    terminalFocused <- isTerminalFocused innerDetector terminalId ;;
    if negb terminalFocused then ret false
    else
      sessionAttached <- runCommand (tmux_session_attached paneId) ;;
      if negb (strict_eqb sessionAttached (Some (lit "1"))) then ret false
      else
        windowActive <- runCommand (tmux_window_active paneId) ;;
        ret (strict_eqb windowActive (Some (lit "1")))
|}.

(** [class AlwaysNotifyDetector] *)
Definition AlwaysNotifyDetector : FocusDetector Ext := {|
  name := lit "Fallback (always notify)";
  init := ret (Some (lit "unsupported"));
  isTerminalFocused := fun _terminalId => ret false
|}.

(** The three variables of [process.env] the factory reads; [None] is
    an unset variable. *)
Record Env : Type := mkEnv {
  XDG_SESSION_TYPE : option jsstring;
  DISPLAY : option jsstring;
  TMUX_PANE : option jsstring
}.

(** [createFocusDetector] *)
Definition createFocusDetector (env : Env) : FocusDetector Ext :=
  let sessionType := XDG_SESSION_TYPE env in
  let tmuxPane := TMUX_PANE env in
  let baseDetector :=
    if strict_eqb sessionType (Some (lit "x11")) || opt_truthy (DISPLAY env)
    then X11FocusDetector
    else AlwaysNotifyDetector in
  match tmuxPane with
  | Some pane =>
      if JsString.truthy pane then TmuxFocusDetector pane baseDetector
      else baseDetector
  | None => baseDetector
  end.

(** [initFocusDetection] *)
Definition initFocusDetection (env : Env)
  : Async Ext (FocusDetector Ext * option jsstring) :=
  let detector := createFocusDetector env in
  terminalId <- init detector ;;
  ret (detector, terminalId).

End Focus.

(* ================================================================== *)
(** * notify.ts *)
(* ================================================================== *)

(** [NOTIFICATION_DEFAULTS] *)
Definition NOTIFICATION_DEFAULTS (eventType : EventType)
  : NotificationContent :=
  match eventType with
  | complete =>
      mkContent (lit "OpenCode Ready") (lit "Task completed")
                (lit "dialog-information")
  | error =>
      mkContent (lit "OpenCode Error") (lit "An error occurred")
                (lit "dialog-error")
  | permission =>
      mkContent (lit "OpenCode Permission") (lit "Action requires approval")
                (lit "dialog-password")
  | question =>
      mkContent (lit "OpenCode Question") (lit "Your input is needed")
                (lit "dialog-question")
  end.

(** [EVENT_SOUNDS] *)
Definition EVENT_SOUNDS (eventType : EventType) : jsstring :=
  match eventType with
  | complete => lit "dialog-information"
  | error => lit "dialog-error"
  | permission => lit "dialog-warning"
  | question => lit "dialog-question"
  end.

(** [EventContext]: every field is optional. *)
Record EventContext : Type := mkContext {
  errorMessage : option jsstring;
  permissionName : option jsstring;
  permissionPatterns : option (list jsstring);
  questionText : option jsstring;
  questionHeader : option jsstring
}.

(** The string literal [truncate] appends, code unit by code unit as it
    stands in the source text: U+00E2 U+20AC U+00A6, which is how the
    UTF-8 bytes of U+2026 HORIZONTAL ELLIPSIS read in Windows-1252. *)
Definition ELLIPSIS : jsstring := [226; 8364; 166]%N.

(** [truncate] *)
Definition truncate (str : jsstring) (maxLength : Z) : jsstring :=
  let cleaned := trim (replace_ws_runs str) in
  if (Z.of_nat (List.length cleaned) <=? maxLength)%Z then cleaned
  else slice cleaned 0 (maxLength - 1) +++ ELLIPSIS.

(** A string that is known to be truthy, or nothing. *)
Definition when_truthy (o : option jsstring) : option jsstring :=
  match o with
  | Some s => if JsString.truthy s then Some s else None
  | None => None
  end.

(** [context.permissionPatterns?.[0]] *)
Definition first_pattern (context : EventContext) : option jsstring :=
  match permissionPatterns context with
  | Some (p :: _) => Some p
  | _ => None
  end.

(** [getNotificationContent] *)
Definition getNotificationContent (eventType : EventType)
           (context : option EventContext) : NotificationContent :=
  let defaults := NOTIFICATION_DEFAULTS eventType in
  match context with
  | None => defaults
  | Some context =>
      let body :=
        match eventType with
        | error =>
            match when_truthy (errorMessage context) with
            | Some msg => truncate msg 100
            | None => body defaults
            end
        | permission =>
            match when_truthy (permissionName context) with
            | Some pname =>
                match when_truthy (first_pattern context) with
                | Some pattern => pname +++ lit ": " +++ truncate pattern 60
                | None => pname +++ lit " requested"
                end
            | None => body defaults
            end
        | question =>
            match when_truthy (questionText context) with
            | Some text => truncate text 100
            | None =>
                match when_truthy (questionHeader context) with
                | Some header => truncate header 100
                | None => body defaults
                end
            end
        | complete => body defaults
        end in
      {| title := title defaults; body := body; icon := icon defaults |}
  end.

(** [getEventSound] *)
Definition getEventSound (eventType : EventType) : jsstring :=
  EVENT_SOUNDS eventType.

Definition BACKSLASH : codeunit := 92%N.
Definition DQUOTE : codeunit := 34%N.

(** [escapeShellArg] *)
Definition escapeShellArg (arg : jsstring) : jsstring :=
  replace_unit DQUOTE [BACKSLASH; DQUOTE]
    (replace_unit BACKSLASH [BACKSLASH; BACKSLASH] arg).

Definition quoted (s : jsstring) : jsstring := [DQUOTE] +++ s +++ [DQUOTE].

(** The [options] argument of [sendNotification]; [playSound] receives
    the [sound.enabled] leaf of the configuration as it is. *)
Record SendOptions : Type := mkOptions {
  opt_icon : option jsstring;
  opt_playSound : option json;
  opt_soundId : option jsstring
}.

(** The command line of the visual notification. *)
Definition notify_send_command (title body : jsstring)
           (options : option SendOptions) : jsstring :=
  let iconArg :=
    match when_truthy (match options with
                       | Some o => opt_icon o
                       | None => None
                       end) with
    | Some i => lit "-i " +++ quoted (escapeShellArg i)
    | None => []
    end in
  lit "notify-send -a " +++ quoted (lit "OpenCode") +++ lit " -u normal "
      +++ iconArg +++ lit " " +++ quoted (escapeShellArg title)
      +++ lit " " +++ quoted (escapeShellArg body).

Definition canberra_command (soundId : jsstring) : jsstring :=
  lit "canberra-gtk-play -i " +++ quoted soundId.

Section Notify.

Context {Ext : Type} {shell : Shell Ext}.

(** [playSound] *)
Definition playSound (soundId : jsstring) : Async Ext unit :=
  try_catch (execAsync (canberra_command soundId) ;;; ret tt)
            (fun _ => ret tt).

(** [sendNotification].  Both child processes are started in this
    order before either is awaited; they are run here one after the
    other in the order they are started.  The visual notification is
    guarded by handlers on its promise only: when [exec] throws on its
    command line the function rejects at once and starts no sound. *)
Definition sendNotification (title body : jsstring)
           (options : option SendOptions) : Async Ext unit :=
  let cmd := notify_send_command title body options in
  then_catch (execAsync cmd) ;;;
  match options with
  | Some o =>
      match opt_playSound o, when_truthy (opt_soundId o) with
      | Some p, Some soundId =>
          if Json.truthy p then playSound soundId else ret tt
      | _, _ => ret tt
      end
  | None => ret tt
  end.

End Notify.

(* ================================================================== *)
(** * config.ts *)
(* ================================================================== *)

(** [DEFAULT_CONFIG] *)
Definition DEFAULT_CONFIG : NotificationConfig := {|
  events := {|
    ev_complete := JBool true;
    ev_error := JBool true;
    ev_permission := JBool true;
    ev_question := JBool true
  |};
  sound := {| enabled := JBool true |}
|}.

Definition CONFIG_FILENAME : jsstring := lit "opencode-notifications.json".

(** [isEventEnabled] *)
Definition isEventEnabled (config : NotificationConfig)
           (eventType : EventType) : json :=
  match eventType with
  | complete => ev_complete (events config)
  | error => ev_error (events config)
  | permission => ev_permission (events config)
  | question => ev_question (events config)
  end.

Section Config.

(** The Node.js library the loader calls: [os.homedir], [path.join],
    [fs.existsSync], [fs.readFileSync] (which gives [None] when it
    throws) and [JSON.parse] (likewise). *)
Variable homedir : jsstring.
Variable join : list jsstring -> jsstring.
Variable existsSync : jsstring -> bool.
Variable readFileSync : jsstring -> option jsstring.
Variable JSON_parse : jsstring -> option json.

(** [getConfigPath] *)
Definition getConfigPath : jsstring :=
  join [homedir; lit ".config"; lit "opencode"; CONFIG_FILENAME].

(** The object literal [loadConfig] builds from the parsed value. *)
Definition merge_with_defaults (parsed : json) : NotificationConfig :=
  let ev := Json.get (Some parsed) (lit "events") in
  let snd_ := Json.get (Some parsed) (lit "sound") in
  {| events := {|
       ev_complete :=
         Json.nullish (Json.get ev (lit "complete"))
                      (ev_complete (events DEFAULT_CONFIG));
       ev_error :=
         Json.nullish (Json.get ev (lit "error"))
                      (ev_error (events DEFAULT_CONFIG));
       ev_permission :=
         Json.nullish (Json.get ev (lit "permission"))
                      (ev_permission (events DEFAULT_CONFIG));
       ev_question :=
         Json.nullish (Json.get ev (lit "question"))
                      (ev_question (events DEFAULT_CONFIG))
     |};
     sound := {|
       enabled :=
         Json.nullish (Json.get snd_ (lit "enabled"))
                      (enabled (sound DEFAULT_CONFIG))
     |}
  |}.

(** [loadConfig] *)
Definition loadConfig : NotificationConfig :=
  let configPath := getConfigPath in
  if negb (existsSync configPath) then DEFAULT_CONFIG
  else
    match readFileSync configPath with
    | None => DEFAULT_CONFIG
    | Some content =>
        match JSON_parse content with
        | None => DEFAULT_CONFIG
        | Some parsed => merge_with_defaults parsed
        end
    end.

End Config.

(* ================================================================== *)
(** * index.ts *)
(* ================================================================== *)

Section Plugin.

Context {Ext : Type} {shell : Shell Ext}.

(** What the plugin closure holds after start-up. *)
Record PluginState : Type := mkPlugin {
  config : NotificationConfig;
  detector : FocusDetector Ext;
  terminalId : option jsstring
}.

(** The body of [NotificationsPlugin] up to the definition of the
    handlers; [loaded] is the result of [loadConfig()]. *)
Definition NotificationsPlugin (loaded : NotificationConfig) (env : Env)
  : Async Ext PluginState :=
  r <- initFocusDetection env ;;
  ret (mkPlugin loaded (fst r) (snd r)).

(** [maybeNotify] *)
Definition maybeNotify (st : PluginState) (eventType : EventType)
           (context : option EventContext) : Async Ext unit :=
  if negb (Json.truthy (isEventEnabled (config st) eventType)) then ret tt
  else
    focused <-
      match when_truthy (terminalId st) with
      | Some tid => isTerminalFocused (detector st) tid
      | None => ret false
      end ;;
    if focused then ret tt
    else
      let content := getNotificationContent eventType context in
      sendNotification (title content) (body content)
        (Some {| opt_icon := Some (icon content);
                 opt_playSound := Some (enabled (sound (config st)));
                 opt_soundId := Some (getEventSound eventType) |}).

(** A series of gate invocations, one per application event.  Each is
    awaited on its own; whether one of them rejects does not keep the
    host from delivering the next event. *)
Fixpoint maybeNotifyAll (st : PluginState)
         (calls : list (EventType * option EventContext))
         (w : World Ext) : World Ext :=
  match calls with
  | [] => w
  | (eventType, context) :: rest =>
      maybeNotifyAll st rest (snd (maybeNotify st eventType context w))
  end.

End Plugin.

Arguments PluginState : clear implicits.

(** ** The handlers the plugin returns *)

(** The [properties] of an application event, as the handlers read them
    through their type assertions: every field is optional. *)
Record ErrorData : Type := mkErrorData { message : option jsstring }.

Record ErrorInfo : Type := mkErrorInfo {
  err_data : option ErrorData;
  err_name : option jsstring
}.

Record QuestionInfo : Type := mkQuestionInfo {
  q_question : option jsstring;
  q_header : option jsstring
}.

Record EventProperties : Type := mkProperties {
  p_error : option ErrorInfo;
  p_permission : option jsstring;
  p_patterns : option (list jsstring);
  p_questions : option (list QuestionInfo)
}.

Record HostEvent : Type := mkHostEvent {
  ev_type : jsstring;
  properties : EventProperties
}.

(** [props.error?.data?.message || props.error?.name || undefined] *)
Definition error_message_of (props : EventProperties) : option jsstring :=
  let msg :=
    match p_error props with
    | Some e => match err_data e with
                | Some d => message d
                | None => None
                end
    | None => None
    end in
  match when_truthy msg with
  | Some m => Some m
  | None =>
      when_truthy (match p_error props with
                   | Some e => err_name e
                   | None => None
                   end)
  end.

(** The context object of a [session.error] event. *)
Definition error_context (props : EventProperties) : EventContext :=
  mkContext (error_message_of props) None None None None.

(** The context object of a permission request. *)
Definition permission_context (props : EventProperties) : EventContext :=
  mkContext None (p_permission props) (p_patterns props) None None.

(** [props.questions?.[0]] *)
Definition first_question (props : EventProperties) : option QuestionInfo :=
  match p_questions props with
  | Some (q :: _) => Some q
  | _ => None
  end.

(** The context object of a [question.asked] event. *)
Definition question_context (props : EventProperties) : EventContext :=
  let firstQuestion := first_question props in
  mkContext None None None
    (match firstQuestion with Some q => q_question q | None => None end)
    (match firstQuestion with Some q => q_header q | None => None end).

Section Handlers.

Context {Ext : Type} {shell : Shell Ext}.

(** [if (cond) { await action }] *)
Definition when_ (cond : bool) (action : Async Ext unit) : Async Ext unit :=
  if cond then action else ret tt.

(** The [event] handler. *)
Definition handle_event (st : PluginState Ext) (event : HostEvent)
  : Async Ext unit :=
  let props := properties event in
  when_ (JsString.eqb (ev_type event) (lit "session.idle"))
        (maybeNotify st complete None) ;;;
  when_ (JsString.eqb (ev_type event) (lit "session.error"))
        (maybeNotify st error (Some (error_context props))) ;;;
  when_ (JsString.eqb (ev_type event) (lit "permission.updated"))
        (maybeNotify st permission None) ;;;
  when_ (JsString.eqb (ev_type event) (lit "permission.asked"))
        (maybeNotify st permission (Some (permission_context props))) ;;;
  when_ (JsString.eqb (ev_type event) (lit "question.asked"))
        (maybeNotify st question (Some (question_context props))).

(** The [permission.ask] hook. *)
Definition handle_permission_ask (st : PluginState Ext)
           (input : EventProperties) : Async Ext unit :=
  maybeNotify st permission (Some (permission_context input)).

End Handlers.

(** The command lines of [w'] that were not yet in [w], when [w'] is a
    later state of [w]. *)
Definition executed_since {Ext} (w w' : World Ext) : list jsstring :=
  skipn (List.length (executed w)) (executed w').

(** A delivery is a [notify-send] command line handed to [exec]. *)
Definition is_delivery (command : jsstring) : bool :=
  JsString.eqb (firstn 12 command) (lit "notify-send ").

Definition deliveries {Ext} (w : World Ext) : nat :=
  List.length (filter is_delivery (executed w)).

(* ================================================================== *)
(** * A scripted operating system *)
(* ================================================================== *)

(** An operating system that answers the commands from a script, one
    outcome per command in order, and fails every command once the
    script is used up.  Every finite course of probe outcomes is a
    script.  As Node does, it refuses a command line that holds U+0000
    before any process is started. *)
Module Scripted.

Definition Script := list ExecOutcome.

#[global] Instance shell : Shell Script :=
  fun command script =>
    if existsb (N.eqb 0) command then (Failed ExecThrew, script)
    else
      match script with
      | [] => (Failed MissingBinary, [])
      | outcome :: rest => (outcome, rest)
      end.

Definition start (script : Script) : World Script := mkWorld script [].

(** A process that prints [s] and a newline. *)
Definition prints (s : string) : ExecOutcome :=
  Exited (lit s +++ [10%N]) [].

End Scripted.

(* ================================================================== *)
(** * The vocabulary of the specification *)
(* ================================================================== *)

(** The words of the specification: [t] is [s] without its surrounding
    whitespace. *)
Definition is_trim_of (s t : jsstring) : Prop :=
  (exists a b, s = a ++ t ++ b
               /\ forallb isWhiteSpace a = true
               /\ forallb isWhiteSpace b = true)
  /\ match t with [] => True | c :: _ => isWhiteSpace c = false end
  /\ match rev t with [] => True | c :: _ => isWhiteSpace c = false end.

(** The words of the specification: the input with every run of
    whitespace collapsed to one space and the ends trimmed, that is, its
    words separated by single spaces. *)
Definition spec_clean (s : jsstring) : jsstring := unwords (words s).

(** The words of the specification: a cleaned string longer than the cap
    becomes its first cap-1 code units and the ellipsis marker. *)
Definition spec_truncate (s : jsstring) (cap : Z) : jsstring :=
  let cleaned := spec_clean s in
  if (cap <? Z.of_nat (List.length cleaned))%Z
  then firstn (Z.to_nat (cap - 1)) cleaned +++ ELLIPSIS
  else cleaned.

(** The words of the specification about the environment: a marker is
    present when the variable is set, whatever its value. *)
Definition marker_present (marker : option jsstring) : bool :=
  match marker with Some _ => true | None => false end.

(** A marker that is set to a value that is not the empty string. *)
Definition marker_nonempty (marker : option jsstring) : Prop :=
  exists value, marker = Some value /\ value <> [].

(** The session-type marker has the X11 value. *)
Definition session_is_x11 (env : Env) : Prop :=
  XDG_SESSION_TYPE env = Some (lit "x11").

(** The factory as the specification words it, with presence of the
    display-endpoint and multiplexer-pane markers as the tests. *)
Definition spec_createFocusDetector {Ext} {shell : Shell Ext} (env : Env)
  : FocusDetector Ext :=
  let base :=
    if strict_eqb (XDG_SESSION_TYPE env) (Some (lit "x11"))
       || marker_present (DISPLAY env)
    then X11FocusDetector
    else AlwaysNotifyDetector in
  match TMUX_PANE env with
  | Some pane => TmuxFocusDetector pane base
  | None => base
  end.

(** The five leaves of a configuration and where the file holds them. *)
Inductive Leaf : Type :=
| LeafComplete | LeafError | LeafPermission | LeafQuestion | LeafSoundEnabled.

Definition leaf_path (leaf : Leaf) : list jsstring :=
  match leaf with
  | LeafComplete => [lit "events"; lit "complete"]
  | LeafError => [lit "events"; lit "error"]
  | LeafPermission => [lit "events"; lit "permission"]
  | LeafQuestion => [lit "events"; lit "question"]
  | LeafSoundEnabled => [lit "sound"; lit "enabled"]
  end.

Definition leaf_of (config : NotificationConfig) (leaf : Leaf) : json :=
  match leaf with
  | LeafComplete => ev_complete (events config)
  | LeafError => ev_error (events config)
  | LeafPermission => ev_permission (events config)
  | LeafQuestion => ev_question (events config)
  | LeafSoundEnabled => enabled (sound config)
  end.

(** The value a parsed file holds at a leaf; [None] when it holds none. *)
Definition parsed_leaf (parsed : json) (leaf : Leaf) : option json :=
  fold_left Json.get (leaf_path leaf) (Some parsed).

(** A detector that claims focus for every identity, and one that
    rejects whenever it is asked: two implementations of the interface
    a gate must cope with. *)
Definition AlwaysFocusedDetector {Ext} : FocusDetector Ext := {|
  name := lit "always focused";
  init := ret (Some (lit "window"));
  isTerminalFocused := fun _ => ret true
|}.

Definition RejectingDetector {Ext} : FocusDetector Ext := {|
  name := lit "rejecting";
  init := throw (Thrown (lit "init"));
  isTerminalFocused := fun _ => throw (Thrown (lit "isTerminalFocused"))
|}.

(** A sample home directory for the concrete runs of the loader: the
    path separator is a slash, and the parser knows two file contents,
    the empty object and an object that turns the error category off. *)
Module SampleFiles.

Definition homedir : jsstring := lit "/home/user".

Definition join (parts : list jsstring) : jsstring :=
  match parts with
  | [] => lit "."
  | p :: rest => p +++ flat_map (cons 47%N) rest
  end.

Definition empty_object : jsstring := lit "{}".

Definition error_off : jsstring :=
  lit "{" +++ quoted (lit "events") +++ lit ":{"
      +++ quoted (lit "error") +++ lit ":false}}".

Definition JSON_parse (content : jsstring) : option json :=
  if JsString.eqb content empty_object then Some (JObject [])
  else if JsString.eqb content error_off
       then Some (JObject [(lit "events",
                            JObject [(lit "error", JBool false)])])
       else None.

End SampleFiles.

(** The options [maybeNotify] passes to [sendNotification]. *)
Definition gate_options {Ext} (st : PluginState Ext) (eventType : EventType)
           (content : NotificationContent) : option SendOptions :=
  Some {| opt_icon := Some (icon content);
          opt_playSound := Some (enabled (sound (config st)));
          opt_soundId := Some (getEventSound eventType) |}.

(** The command lines one delivery of the gate runs. *)
Definition delivery_commands {Ext} (st : PluginState Ext)
           (eventType : EventType) (context : option EventContext)
  : list jsstring :=
  let content := getNotificationContent eventType context in
  notify_send_command (title content) (body content)
                      (gate_options st eventType content)
  :: (if Json.truthy (enabled (sound (config st)))
      then [canberra_command (getEventSound eventType)]
      else []).

(** The gate calls that are not of category [eventType]. *)
Definition without_category (eventType : EventType)
           (calls : list (EventType * option EventContext))
  : list (EventType * option EventContext) :=
  filter (fun call => negb (EventType_eqb (fst call) eventType)) calls.

(** ** Vocabulary for the remaining code *)

(** The detectors of [focus.ts]: the two base detectors and what the
    wrapping detector makes of them. *)
Inductive Builtin {Ext} {shell : Shell Ext} : FocusDetector Ext -> Prop :=
| Builtin_X11 : Builtin X11FocusDetector
| Builtin_AlwaysNotify : Builtin AlwaysNotifyDetector
| Builtin_Tmux (paneId : jsstring) (inner : FocusDetector Ext) :
    Builtin inner -> Builtin (TmuxFocusDetector paneId inner).

(** The code units a backslash escapes between double quotes in a POSIX
    shell: backslash, double quote, dollar, backquote and newline. *)
Definition shell_escapable (c : codeunit) : bool :=
  ((c =? BACKSLASH) || (c =? DQUOTE) || (c =? 36) || (c =? 96)
   || (c =? 10))%N.

(** Whether a POSIX shell that reads [s] after an opening double quote
    finds a closing double quote in it. *)
Fixpoint closes_quote (s : jsstring) : bool :=
  match s with
  | [] => false
  | c :: r =>
      if (c =? DQUOTE)%N then true
      else if (c =? BACKSLASH)%N
           then match r with
                | [] => false
                | d :: r' =>
                    if shell_escapable d then closes_quote r'
                    else closes_quote r
                end
           else closes_quote r
  end.

(** What such a shell makes of the text [s] between double quotes, as
    far as backslashes go: they are removed before a code unit they
    escape (an escaped newline goes with them) and kept elsewhere. *)
Fixpoint shell_unescape (s : jsstring) : jsstring :=
  match s with
  | [] => []
  | c :: r =>
      if (c =? BACKSLASH)%N
      then match r with
           | [] => [c]
           | d :: r' =>
               if shell_escapable d
               then (if (d =? 10)%N then shell_unescape r'
                     else d :: shell_unescape r')
               else c :: shell_unescape r
           end
      else c :: shell_unescape r
  end.

(** The gate call a host event leads to, if any. *)
Definition gate_call_of (event : HostEvent)
  : option (EventType * option EventContext) :=
  let props := properties event in
  if JsString.eqb (ev_type event) (lit "session.idle")
  then Some (complete, None)
  else if JsString.eqb (ev_type event) (lit "session.error")
  then Some (error, Some (error_context props))
  else if JsString.eqb (ev_type event) (lit "permission.updated")
  then Some (permission, None)
  else if JsString.eqb (ev_type event) (lit "permission.asked")
  then Some (permission, Some (permission_context props))
  else if JsString.eqb (ev_type event) (lit "question.asked")
  then Some (question, Some (question_context props))
  else None.

(** The leaf of the configuration that switches an event category. *)
Definition leaf_of_event (eventType : EventType) : Leaf :=
  match eventType with
  | complete => LeafComplete
  | error => LeafError
  | permission => LeafPermission
  | question => LeafQuestion
  end.

(** The state after the child process of [command] has ended. *)
Definition after {Ext} {shell : Shell Ext} (command : jsstring)
           (w : World Ext) : World Ext :=
  mkWorld (snd (respond command (ext w))) (executed w ++ [command]).

(** A state reached from [w] by running commands none of which is a
    delivery. *)
Definition probes_only {Ext} (w w' : World Ext) : Prop :=
  exists commands,
    executed w' = executed w ++ commands
    /\ forallb (fun c => negb (is_delivery c)) commands = true.

(** The sound [sendNotification] plays for its options, if any. *)
Definition sound_to_play (options : option SendOptions) : option jsstring :=
  match options with
  | Some o =>
      match opt_playSound o with
      | Some p => if Json.truthy p then when_truthy (opt_soundId o) else None
      | None => None
      end
  | None => None
  end.

(** [exec] takes the command line in state [w]: it does not throw on
    it. *)
Definition exec_accepts {Ext} {shell : Shell Ext} (command : jsstring)
           (w : World Ext) : Prop :=
  fst (respond command (ext w)) <> Failed ExecThrew.

(** An operating system under Node: [exec] throws on every command line
    that holds U+0000. *)
Definition refuses_null_bytes {Ext} (shell : Shell Ext) : Prop :=
  forall command s, In 0%N command ->
                    fst (respond command s) = Failed ExecThrew.

(** The command line of the visual notification of a gate delivery. *)
Definition gate_command {Ext} (st : PluginState Ext) (eventType : EventType)
           (context : option EventContext) : jsstring :=
  let content := getNotificationContent eventType context in
  notify_send_command (title content) (body content)
                      (gate_options st eventType content).

(* ================================================================== *)
(** * Properties: strings *)
(* ================================================================== *)

Lemma eqb_spec (a b : jsstring) : reflect (a = b) (JsString.eqb a b).
Proof.
  unfold JsString.eqb.
  destruct (list_eq_dec N.eq_dec a b); constructor; assumption.
Qed.

Lemma eqb_refl (a : jsstring) : JsString.eqb a a = true.
Proof. destruct (eqb_spec a a); congruence. Qed.

Lemma strict_eqb_true (a b : option jsstring) :
  strict_eqb a b = true <-> a = b.
Proof.
  destruct a as [x|], b as [y|]; simpl; try (split; congruence).
  destruct (eqb_spec x y); split; congruence.
Qed.

Lemma strict_eqb_some (a : option jsstring) (s : jsstring) :
  strict_eqb a (Some s) = true <-> a = Some s.
Proof. apply strict_eqb_true. Qed.

(** What remains after [trimStart] does not begin with whitespace. *)
Lemma trimStart_head (s : jsstring) :
  match trimStart s with
  | [] => True
  | c :: _ => isWhiteSpace c = false
  end.
Proof.
  induction s as [|c r IH]; simpl; [exact I|].
  destruct (isWhiteSpace c) eqn:E; [exact IH | exact E].
Qed.

Lemma trimStart_split (s : jsstring) :
  exists a, s = a ++ trimStart s /\ forallb isWhiteSpace a = true.
Proof.
  induction s as [|c r [a [Ha Hw]]]; simpl.
  - exists []. split; reflexivity.
  - destruct (isWhiteSpace c) eqn:E.
    + exists (c :: a). simpl. rewrite E, Hw. split; [f_equal; exact Ha | reflexivity].
    + exists []. split; reflexivity.
Qed.

Lemma trimEnd_nil (s : jsstring) :
  trimEnd s = [] <-> forallb isWhiteSpace s = true.
Proof.
  induction s as [|c r IH]; simpl; [tauto|].
  destruct (trimEnd r) as [|x r'] eqn:E.
  - destruct (isWhiteSpace c); simpl.
    + split; [intros _; apply IH; reflexivity | reflexivity].
    + split; discriminate.
  - split; [discriminate|].
    intros H. apply andb_true_iff in H. destruct H as [_ H].
    apply IH in H. discriminate.
Qed.

Lemma trimEnd_split (s : jsstring) :
  exists b, s = trimEnd s ++ b /\ forallb isWhiteSpace b = true.
Proof.
  induction s as [|c r [b [Hb Hw]]]; simpl.
  - exists []. split; reflexivity.
  - destruct (trimEnd r) as [|x r'] eqn:E.
    + destruct (isWhiteSpace c) eqn:Ec.
      * exists (c :: r). split; [reflexivity|].
        simpl. rewrite Ec. apply trimEnd_nil. exact E.
      * exists b. split; [simpl in *; congruence | exact Hw].
    + exists b. split; [simpl in *; congruence | exact Hw].
Qed.

(** What remains after [trimEnd] does not end with whitespace. *)
Lemma trimEnd_last (s : jsstring) :
  match rev (trimEnd s) with
  | [] => True
  | c :: _ => isWhiteSpace c = false
  end.
Proof.
  induction s as [|c r IH]; simpl; [exact I|].
  destruct (trimEnd r) as [|x r'] eqn:E.
  - destruct (isWhiteSpace c) eqn:Ec; simpl; [exact I | exact Ec].
  - change (rev (c :: x :: r')) with (rev (x :: r') ++ [c]).
    destruct (rev (x :: r')) as [|y t] eqn:Er.
    + apply (f_equal (@List.length _)) in Er.
      rewrite length_rev in Er. discriminate.
    + exact IH.
Qed.

Lemma trimEnd_head (s : jsstring) :
  match s with
  | [] => True
  | c :: _ => isWhiteSpace c = false -> exists t, trimEnd s = c :: t
  end.
Proof.
  destruct s as [|c r]; [exact I|]. intros Hc. simpl.
  destruct (trimEnd r); rewrite ?Hc; eauto.
Qed.

Lemma trim_is_trim_of (s : jsstring) : is_trim_of s (trim s).
Proof.
  unfold is_trim_of, trim. split; [|split].
  - destruct (trimStart_split s) as [a [Ha Hwa]].
    destruct (trimEnd_split (trimStart s)) as [b [Hb Hwb]].
    exists a, b. split; [|split]; try assumption.
    rewrite <- Hb. exact Ha.
  - pose proof (trimStart_head s) as Hh.
    pose proof (trimEnd_head (trimStart s)) as Ht.
    destruct (trimStart s) as [|c r]; [exact I|].
    destruct (Ht Hh) as [t Et]. rewrite Et. exact Hh.
  - apply trimEnd_last.
Qed.

(** ** Whitespace runs *)

Lemma fields_not_nil (s : jsstring) : fields s <> [].
Proof.
  destruct s as [|c r]; simpl; [discriminate|].
  destruct (isWhiteSpace c); [discriminate|].
  destruct (fields r); discriminate.
Qed.

Lemma words_truthy (s w : jsstring) : In w (words s) -> w <> [].
Proof.
  unfold words. intros H. apply filter_In in H. destruct H as [_ H].
  destruct w; [discriminate H | discriminate].
Qed.

Lemma trimStart_replace_from_true (s : jsstring) :
  trimStart (replace_ws_runs_from true s) = replace_ws_runs_from true s.
Proof.
  induction s as [|c r IH]; simpl; [reflexivity|].
  destruct (isWhiteSpace c) eqn:E; [exact IH|].
  simpl. rewrite E. reflexivity.
Qed.

Lemma trimStart_replace_ws_runs (s : jsstring) :
  trimStart (replace_ws_runs s) = replace_ws_runs_from true s.
Proof.
  unfold replace_ws_runs. destruct s as [|c r]; simpl; [reflexivity|].
  destruct (isWhiteSpace c) eqn:E; simpl.
  - apply trimStart_replace_from_true.
  - rewrite E. reflexivity.
Qed.

Lemma trimEnd_cons_nonspace (c : codeunit) (s : jsstring) :
  isWhiteSpace c = false -> trimEnd (c :: s) = c :: trimEnd s.
Proof.
  intros E. simpl. destruct (trimEnd s); [rewrite E|]; reflexivity.
Qed.

(** Both ways in which the replacement can start, in terms of the
    fields of the input. *)
Lemma trimEnd_replace_fields (s : jsstring) :
  trimEnd (replace_ws_runs_from false s)
  = match fields s with
    | w :: ws => w ++ flat_map (cons SPACE) (filter JsString.truthy ws)
    | [] => []
    end
  /\ trimEnd (replace_ws_runs_from true s) = unwords (words s).
Proof.
  induction s as [|c r [IHf IHt]]; [split; reflexivity|].
  unfold words in *. simpl.
  destruct (isWhiteSpace c) eqn:E.
  - split; [|exact IHt].
    cbn [trimEnd]. rewrite IHt.
    pose proof (@words_truthy r) as Hne. unfold words in Hne.
    destruct (filter JsString.truthy (fields r)) as [|x xs]; [reflexivity|].
    destruct x as [|a x']; [exfalso; apply (Hne []); [left|]; reflexivity|].
    reflexivity.
  - rewrite trimEnd_cons_nonspace by exact E. rewrite IHf.
    pose proof (@fields_not_nil r) as Hnn.
    destruct (fields r) as [|w ws]; [congruence|].
    split; reflexivity.
Qed.

(** The cleaning step of [truncate] yields the words of the input
    separated by single spaces. *)
Lemma clean_is_spec_clean (s : jsstring) :
  trim (replace_ws_runs s) = spec_clean s.
Proof.
  unfold trim, spec_clean. rewrite trimStart_replace_ws_runs.
  apply trimEnd_replace_fields.
Qed.

Lemma slice_prefix (s : jsstring) (n : Z) :
  (0 <= n <= Z.of_nat (List.length s))%Z ->
  slice s 0 n = firstn (Z.to_nat n) s.
Proof.
  intros H. unfold slice, clamp_index.
  replace (0 <? 0)%Z with false by reflexivity.
  destruct (Z.ltb_spec n 0); [lia|].
  rewrite Z.min_l by lia. rewrite Z.min_l by lia.
  destruct (Z.leb_spec n 0).
  - replace n with 0%Z by lia. reflexivity.
  - simpl. f_equal. lia.
Qed.

(* ================================================================== *)
(** * Properties: notify.ts *)
(* ================================================================== *)

Example truncate_short :
  truncate (lit "  build   failed:
 exit 1 ") 100 = lit "build failed: exit 1".
Proof. reflexivity. Qed.

Example truncate_long :
  truncate (lit "permission  denied") 11 = lit "permission" +++ ELLIPSIS.
Proof. reflexivity. Qed.

Example truncate_cap_zero : truncate (lit "ab") 0 = lit "a" +++ ELLIPSIS.
Proof. reflexivity. Qed.

(** C8, as stated, fails for a cap below one: with cap 0 the code keeps
    all but the last code unit of the cleaned string (a negative end
    index of [slice] counts from the end), where the first cap-1 code
    units are none. *)
Lemma truncate_cap_zero_differs :
  truncate (lit "ab") 0 <> spec_truncate (lit "ab") 0.
Proof. vm_compute. discriminate. Qed.

(** C8 (amended): for every input string and every cap of at least one,
    [truncate] collapses the whitespace runs to single spaces and trims
    the ends; when the cleaned string is longer than the cap the result is
    its first cap-1 code units followed by one ellipsis marker, otherwise
    the cleaned string unchanged. *)
Theorem truncate_spec (str : jsstring) (maxLength : Z) :
  (1 <= maxLength)%Z ->
  truncate str maxLength = spec_truncate str maxLength.
Proof.
  intros Hcap. unfold truncate, spec_truncate.
  rewrite clean_is_spec_clean.
  destruct (Z.leb_spec (Z.of_nat (List.length (spec_clean str))) maxLength)
    as [Hle|Hgt].
  - destruct (Z.ltb_spec maxLength (Z.of_nat (List.length (spec_clean str))));
      [lia | reflexivity].
  - destruct (Z.ltb_spec maxLength (Z.of_nat (List.length (spec_clean str))));
      [|lia].
    rewrite slice_prefix by lia. reflexivity.
Qed.

Lemma truncate_spec_witness :
  (1 <= 11)%Z
  /\ truncate (lit "permission  denied") 11
     = spec_truncate (lit "permission  denied") 11.
Proof.
  split; [lia|]. apply (@truncate_spec (lit "permission  denied") 11). lia.
Defined.

(** C10: for every event type and every context, also none, the title
    and the icon of the notification content are those of the built-in
    defaults of the event type; only the body can differ. *)
Theorem getNotificationContent_frame (eventType : EventType)
        (context : option EventContext) :
  title (getNotificationContent eventType context)
  = title (NOTIFICATION_DEFAULTS eventType)
  /\ icon (getNotificationContent eventType context)
     = icon (NOTIFICATION_DEFAULTS eventType).
Proof.
  unfold getNotificationContent.
  destruct context as [context|]; split; reflexivity.
Qed.

Example content_body_can_differ :
  body (getNotificationContent error
          (Some (mkContext (Some (lit "disk full")) None None None None)))
  = lit "disk full"
  /\ body (NOTIFICATION_DEFAULTS error) = lit "An error occurred".
Proof. split; reflexivity. Qed.

Lemma EVENT_SOUNDS_truthy (eventType : EventType) :
  when_truthy (Some (getEventSound eventType)) = Some (getEventSound eventType).
Proof. destruct eventType; reflexivity. Qed.

Lemma NOTIFICATION_DEFAULTS_icon_truthy (eventType : EventType) :
  when_truthy (Some (icon (NOTIFICATION_DEFAULTS eventType)))
  = Some (icon (NOTIFICATION_DEFAULTS eventType)).
Proof. destruct eventType; reflexivity. Qed.

(* ================================================================== *)
(** * Properties: focus.ts *)
(* ================================================================== *)

Section FocusProperties.

Context {Ext : Type} {shell : Shell Ext}.

Lemma runCommand_run (command : jsstring) (w : World Ext) :
  runCommand command w
  = (Fulfilled (match fst (respond command (ext w)) with
                | Exited out _ => Some (trim out)
                | Failed _ => None
                end),
     mkWorld (snd (respond command (ext w))) (executed w ++ [command])).
Proof.
  unfold runCommand, try_catch, bind, execAsync, ret.
  destruct (respond command (ext w)) as [[out err|e] e']; reflexivity.
Qed.

Lemma runCommand_fulfilled (command : jsstring) (w : World Ext) :
  exists result, fst (runCommand command w) = Fulfilled result.
Proof. rewrite runCommand_run. eexists. reflexivity. Qed.

(** C4: for every command line the probe fulfils, with the standard
    output of the child process without its surrounding whitespace when
    the process succeeds, and with the one sentinel [null] when it
    fails in any way (non-zero exit, timeout, execution error, missing
    binary); it never rejects. *)
Theorem runCommand_never_rejects (command : jsstring) (w : World Ext) :
  exists result,
    fst (runCommand command w) = Fulfilled result
    /\ match fst (respond command (ext w)) with
       | Exited out _ => result = Some (trim out) /\ is_trim_of out (trim out)
       | Failed _ => result = None
       end.
Proof.
  rewrite runCommand_run. eexists. split; [reflexivity|].
  destruct (fst (respond command (ext w))) as [out err|e].
  - split; [reflexivity | apply trim_is_trim_of].
  - reflexivity.
Qed.

(** C3: [isTerminalFocused] of the X11 detector fulfils with [true]
    exactly when the re-probed active window is a successful probe
    result equal to the captured identity, code unit for code unit, and
    with [false] for every other probe result, the failure sentinel
    included. *)
Theorem X11_isTerminalFocused_spec (terminalId : jsstring) (w : World Ext) :
  exists focused,
    fst (isTerminalFocused X11FocusDetector terminalId w) = Fulfilled focused
    /\ (focused = true
        <-> fst (runCommand xdotool_getactivewindow w)
            = Fulfilled (Some terminalId))
    /\ (focused = false
        <-> fst (runCommand xdotool_getactivewindow w)
            <> Fulfilled (Some terminalId)).
Proof.
  simpl. unfold bind. rewrite runCommand_run. simpl.
  eexists. split; [reflexivity|].
  set (probe := match fst (respond xdotool_getactivewindow (ext w)) with
                | Exited out _ => Some (trim out)
                | Failed _ => None
                end).
  assert (Hiff : strict_eqb probe (Some terminalId) = true
                 <-> Fulfilled probe = Fulfilled (Some terminalId)).
  { rewrite strict_eqb_some. split; congruence. }
  split; [exact Hiff|].
  destruct (strict_eqb probe (Some terminalId)).
  - split; [discriminate|]. intros H. exfalso. apply H, Hiff. reflexivity.
  - split; [|reflexivity]. intros _ H. apply Hiff in H. discriminate.
Qed.

(** C7: [init] of the fallback detector always yields the same
    placeholder identity, which is not [null], and [isTerminalFocused]
    yields [false] for every identity, the placeholder included;
    neither runs a command. *)
Theorem AlwaysNotifyDetector_spec (w : World Ext) :
  init AlwaysNotifyDetector w = (Fulfilled (Some (lit "unsupported")), w)
  /\ (forall terminalId,
         isTerminalFocused AlwaysNotifyDetector terminalId w
         = (Fulfilled false, w))
  /\ isTerminalFocused AlwaysNotifyDetector (lit "unsupported") w
     = (Fulfilled false, w).
Proof. repeat split. Qed.

(** C1: when the inner detector answers, [isTerminalFocused] of the
    multiplexer-wrapping detector fulfils with a boolean that is [true]
    exactly when the inner detector reports [true], the
    [session_attached] probe returns the string 1 and the
    [window_active] probe returns the string 1, whatever else the
    probes return or however they fail; and when the inner detector
    reports [false] the result is [false] in the very state the inner
    detector left, no multiplexer probe having run. *)
Theorem Tmux_isTerminalFocused_spec
        (paneId : jsstring) (inner : FocusDetector Ext)
        (terminalId : jsstring) (w w1 : World Ext) (innerFocused : bool) :
  isTerminalFocused inner terminalId w = (Fulfilled innerFocused, w1) ->
  let session := runCommand (tmux_session_attached paneId) w1 in
  let window := runCommand (tmux_window_active paneId) (snd session) in
  exists focused,
    fst (isTerminalFocused (TmuxFocusDetector paneId inner) terminalId w)
    = Fulfilled focused
    /\ (focused = true
        <-> innerFocused = true
            /\ fst session = Fulfilled (Some (lit "1"))
            /\ fst window = Fulfilled (Some (lit "1")))
    /\ (innerFocused = false ->
        isTerminalFocused (TmuxFocusDetector paneId inner) terminalId w
        = (Fulfilled false, w1)).
Proof.
  intros Hinner session window. subst session window.
  cbn [isTerminalFocused TmuxFocusDetector]. unfold bind.
  rewrite Hinner. destruct innerFocused; cbn [negb].
  - rewrite runCommand_run. cbn [fst snd].
    set (s := match fst (respond (tmux_session_attached paneId) (ext w1)) with
              | Exited out _ => Some (trim out)
              | Failed _ => None
              end).
    destruct (strict_eqb s (Some (lit "1"))) eqn:Es; cbn [negb].
    + rewrite runCommand_run. cbn [fst snd].
      eexists. split; [reflexivity|]. split; [|discriminate].
      apply strict_eqb_some in Es. rewrite strict_eqb_some.
      split.
      * intros H. repeat split; congruence.
      * intros [_ [_ H]]. congruence.
    + exists false. split; [reflexivity|]. split; [|discriminate].
      split; [discriminate|]. intros [_ [H _]].
      assert (s = Some (lit "1")) as Hs by congruence.
      apply strict_eqb_some in Hs. congruence.
  - exists false. split; [reflexivity|]. split; [|reflexivity].
    split; [discriminate|]. intros [H _]. discriminate.
Qed.

End FocusProperties.

(** ** Concrete runs of the detectors *)

Example X11_focused_run :
  fst (isTerminalFocused X11FocusDetector (lit "4242")
         (Scripted.start [Scripted.prints "4242"]))
  = Fulfilled true.
Proof. reflexivity. Qed.

Example X11_other_window_run :
  fst (isTerminalFocused X11FocusDetector (lit "4242")
         (Scripted.start [Scripted.prints "4243"]))
  = Fulfilled false.
Proof. reflexivity. Qed.

Example X11_probe_failure_run :
  fst (isTerminalFocused X11FocusDetector (lit "4242")
         (Scripted.start [Failed TimedOut]))
  = Fulfilled false.
Proof. reflexivity. Qed.

Example Tmux_background_window_run :
  fst (isTerminalFocused (TmuxFocusDetector (lit "%3") X11FocusDetector)
         (lit "4242")
         (Scripted.start [Scripted.prints "4242"; Scripted.prints "1";
                          Scripted.prints "0"]))
  = Fulfilled false.
Proof. reflexivity. Qed.

Example Tmux_commands_run :
  executed
    (snd (isTerminalFocused (TmuxFocusDetector (lit "%3") X11FocusDetector)
            (lit "4242")
            (Scripted.start [Scripted.prints "4242"; Scripted.prints "1";
                             Scripted.prints "1"])))
  = [lit "xdotool getactivewindow";
     lit "tmux display-message -t %3 -p '#{session_attached}'";
     lit "tmux display-message -t %3 -p '#{window_active}'"].
Proof. reflexivity. Qed.

Lemma Tmux_isTerminalFocused_spec_witness :
  let w := Scripted.start [Scripted.prints "4242"; Scripted.prints "1";
                           Scripted.prints "1"] in
  let w1 := mkWorld [Scripted.prints "1"; Scripted.prints "1"]
                    [xdotool_getactivewindow] in
  isTerminalFocused X11FocusDetector (lit "4242") w = (Fulfilled true, w1)
  /\ exists focused,
      fst (isTerminalFocused
             (TmuxFocusDetector (lit "%3") X11FocusDetector) (lit "4242") w)
      = Fulfilled focused
      /\ (focused = true
          <-> true = true
              /\ fst (runCommand (tmux_session_attached (lit "%3")) w1)
                 = Fulfilled (Some (lit "1"))
              /\ fst (runCommand (tmux_window_active (lit "%3"))
                        (snd (runCommand (tmux_session_attached (lit "%3"))
                                w1)))
                 = Fulfilled (Some (lit "1")))
      /\ (true = false ->
          isTerminalFocused
            (TmuxFocusDetector (lit "%3") X11FocusDetector) (lit "4242") w
          = (Fulfilled false, w1)).
Proof.
  intros w w1. split; [reflexivity|].
  apply (@Tmux_isTerminalFocused_spec _ _ (lit "%3") X11FocusDetector
           (lit "4242") w w1 true).
  reflexivity.
Defined.

(** ** The factory *)

Section FactoryProperties.

Context {Ext : Type} {shell : Shell Ext}.

Lemma X11_not_AlwaysNotify :
  X11FocusDetector <> (AlwaysNotifyDetector : FocusDetector Ext).
Proof. intros H. apply (f_equal (@name Ext)) in H. discriminate H. Qed.

Lemma Tmux_not_X11 (paneId : jsstring) (inner : FocusDetector Ext) :
  TmuxFocusDetector paneId inner <> X11FocusDetector.
Proof. intros H. apply (f_equal (@name Ext)) in H. discriminate H. Qed.

Lemma Tmux_not_AlwaysNotify (paneId : jsstring) (inner : FocusDetector Ext) :
  TmuxFocusDetector paneId inner <> AlwaysNotifyDetector.
Proof. intros H. apply (f_equal (@name Ext)) in H. discriminate H. Qed.

Lemma opt_truthy_nonempty (marker : option jsstring) :
  opt_truthy marker = true <-> marker_nonempty marker.
Proof.
  unfold marker_nonempty. destruct marker as [[|c s]|]; simpl.
  - split; [discriminate|]. intros [v [Hv Hne]]. congruence.
  - split; [|reflexivity]. intros _. exists (c :: s). split; congruence.
  - split; [discriminate|]. intros [v [Hv _]]. discriminate.
Qed.

(** The local variable [baseDetector] of the factory. *)
Lemma createFocusDetector_base (env : Env) :
  let base : FocusDetector Ext :=
    if strict_eqb (XDG_SESSION_TYPE env) (Some (lit "x11"))
       || opt_truthy (DISPLAY env)
    then X11FocusDetector else AlwaysNotifyDetector in
  createFocusDetector env
  = if opt_truthy (TMUX_PANE env)
    then match TMUX_PANE env with
         | Some pane => TmuxFocusDetector pane base
         | None => base
         end
    else base.
Proof.
  unfold createFocusDetector.
  destruct (TMUX_PANE env) as [[|c p]|]; reflexivity.
Qed.

(** C2 (amended): for every environment the factory takes the X11
    detector as base iff the session-type marker equals the X11 value or
    the display-endpoint marker is set to a non-empty value, and the
    fallback otherwise; it returns the base wrapped in the
    multiplexer-wrapping detector, with the pane marker as pane, iff the
    multiplexer-pane marker is set to a non-empty value, and the base
    itself otherwise.  The base is never a wrapping detector. *)
Theorem createFocusDetector_spec (env : Env) :
  exists base : FocusDetector Ext,
    (base = X11FocusDetector \/ base = AlwaysNotifyDetector)
    /\ (base = X11FocusDetector
        <-> session_is_x11 env \/ marker_nonempty (DISPLAY env))
    /\ (base = AlwaysNotifyDetector
        <-> ~ (session_is_x11 env \/ marker_nonempty (DISPLAY env)))
    /\ (marker_nonempty (TMUX_PANE env)
        <-> exists pane,
              TMUX_PANE env = Some pane
              /\ createFocusDetector env = TmuxFocusDetector pane base)
    /\ (~ marker_nonempty (TMUX_PANE env)
        <-> createFocusDetector env = base).
Proof.
  pose proof (createFocusDetector_base env) as Hrun. cbv zeta in Hrun.
  assert (Hcond : strict_eqb (XDG_SESSION_TYPE env) (Some (lit "x11"))
                  || opt_truthy (DISPLAY env) = true
                  <-> session_is_x11 env \/ marker_nonempty (DISPLAY env)).
  { rewrite orb_true_iff, strict_eqb_some, opt_truthy_nonempty.
    reflexivity. }
  set (base := if strict_eqb (XDG_SESSION_TYPE env) (Some (lit "x11"))
                  || opt_truthy (DISPLAY env)
               then X11FocusDetector else AlwaysNotifyDetector) in *.
  assert (Hbase : base = X11FocusDetector \/ base = AlwaysNotifyDetector).
  { subst base. destruct (_ || _); [left | right]; reflexivity. }
  assert (Hnot : forall pane, TmuxFocusDetector pane base <> base).
  { intros pane H. destruct Hbase as [E|E]; rewrite E in H at 2.
    - exact (Tmux_not_X11 H).
    - exact (Tmux_not_AlwaysNotify H). }
  exists base. split; [exact Hbase|]. split; [|split; [|split]].
  - subst base. destruct (_ || _).
    + split; [intros _; apply Hcond; reflexivity | reflexivity].
    + split.
      * intros H. symmetry in H. destruct (X11_not_AlwaysNotify H).
      * intros H. apply Hcond in H. discriminate.
  - subst base. destruct (_ || _).
    + split.
      * intros H. destruct (X11_not_AlwaysNotify H).
      * intros H. exfalso. apply H, Hcond. reflexivity.
    + split; [|reflexivity]. intros _ H. apply Hcond in H. discriminate.
  - rewrite <- opt_truthy_nonempty.
    destruct (TMUX_PANE env) as [[|c p]|]; simpl in *.
    + split; [discriminate|]. intros [pane [_ H]].
      rewrite Hrun in H. symmetry in H. destruct (Hnot _ H).
    + split; [|reflexivity]. intros _. exists (c :: p). split; congruence.
    + split; [discriminate|]. intros [pane [H _]]. discriminate.
  - rewrite <- opt_truthy_nonempty.
    destruct (TMUX_PANE env) as [[|c p]|]; simpl in *.
    + split; [intros _; exact Hrun | discriminate].
    + split; [intros H; exfalso; apply H; reflexivity|].
      intros H. rewrite Hrun in H. destruct (Hnot _ H).
    + split; [intros _; exact Hrun | discriminate].
Qed.

End FactoryProperties.

Example factory_x11 :
  createFocusDetector (mkEnv (Some (lit "x11")) None None)
  = (X11FocusDetector : FocusDetector Scripted.Script).
Proof. reflexivity. Qed.

Example factory_display_only :
  createFocusDetector (mkEnv None (Some (lit ":0")) None)
  = (X11FocusDetector : FocusDetector Scripted.Script).
Proof. reflexivity. Qed.

Example factory_wayland :
  createFocusDetector (mkEnv (Some (lit "wayland")) None None)
  = (AlwaysNotifyDetector : FocusDetector Scripted.Script).
Proof. reflexivity. Qed.

Example factory_x11_in_tmux :
  createFocusDetector (mkEnv (Some (lit "x11")) None (Some (lit "%3")))
  = (TmuxFocusDetector (lit "%3") X11FocusDetector
     : FocusDetector Scripted.Script).
Proof. reflexivity. Qed.

Example factory_tmux_only :
  createFocusDetector (mkEnv None None (Some (lit "%3")))
  = (TmuxFocusDetector (lit "%3") AlwaysNotifyDetector
     : FocusDetector Scripted.Script).
Proof. reflexivity. Qed.

(** C2, as stated, fails where a marker is present but empty: an empty
    display-endpoint marker does not select the X11 detector, and an
    empty multiplexer-pane marker does not wrap the base. *)
Lemma createFocusDetector_empty_markers :
  let display_empty := mkEnv None (Some []) None in
  let pane_empty := mkEnv None None (Some []) in
  marker_present (DISPLAY display_empty) = true
  /\ createFocusDetector display_empty
     = (AlwaysNotifyDetector : FocusDetector Scripted.Script)
  /\ createFocusDetector display_empty
     <> (spec_createFocusDetector display_empty
         : FocusDetector Scripted.Script)
  /\ marker_present (TMUX_PANE pane_empty) = true
  /\ createFocusDetector pane_empty
     = (AlwaysNotifyDetector : FocusDetector Scripted.Script)
  /\ createFocusDetector pane_empty
     <> (spec_createFocusDetector pane_empty : FocusDetector Scripted.Script).
Proof.
  cbv zeta. repeat split.
  - intros H. apply (f_equal (@name _)) in H. discriminate H.
  - intros H. apply (f_equal (@name _)) in H. discriminate H.
Qed.

(* ================================================================== *)
(** * Properties: config.ts *)
(* ================================================================== *)

Lemma merge_with_defaults_leaf (parsed : json) (leaf : Leaf) :
  leaf_of (merge_with_defaults parsed) leaf
  = Json.nullish (parsed_leaf parsed leaf) (leaf_of DEFAULT_CONFIG leaf).
Proof. destruct leaf; reflexivity. Qed.

Section ConfigProperties.

Variable homedir : jsstring.
Variable join : list jsstring -> jsstring.
Variable existsSync : jsstring -> bool.
Variable readFileSync : jsstring -> option jsstring.
Variable JSON_parse : jsstring -> option json.

Let configPath := getConfigPath homedir join.
Let loaded := loadConfig homedir join existsSync readFileSync JSON_parse.

(** C9: the default configuration enables all four event categories
    and the sound; [loadConfig] returns it when the configuration file
    is absent, cannot be read, or does not hold valid JSON; and when
    the file parses, every leaf the parsed value does not hold has its
    default value in the result. *)
Theorem loadConfig_falls_back_to_defaults :
  (forall leaf, leaf_of DEFAULT_CONFIG leaf = JBool true)
  /\ (existsSync configPath = false -> loaded = DEFAULT_CONFIG)
  /\ (readFileSync configPath = None -> loaded = DEFAULT_CONFIG)
  /\ (forall content,
         readFileSync configPath = Some content ->
         JSON_parse content = None ->
         loaded = DEFAULT_CONFIG)
  /\ (forall content parsed leaf,
         existsSync configPath = true ->
         readFileSync configPath = Some content ->
         JSON_parse content = Some parsed ->
         parsed_leaf parsed leaf = None ->
         leaf_of loaded leaf = leaf_of DEFAULT_CONFIG leaf).
Proof.
  subst loaded configPath. unfold loadConfig.
  split; [intros []; reflexivity|].
  split; [intros ->; reflexivity|].
  split; [intros ->; destruct (negb _); reflexivity|].
  split.
  - intros content -> ->. destruct (negb _); reflexivity.
  - intros content parsed leaf -> -> -> Hmissing. cbn [negb].
    rewrite merge_with_defaults_leaf, Hmissing. reflexivity.
Qed.

End ConfigProperties.

Example getConfigPath_sample :
  getConfigPath SampleFiles.homedir SampleFiles.join
  = lit "/home/user/.config/opencode/opencode-notifications.json".
Proof. reflexivity. Qed.

Example loadConfig_error_off :
  loadConfig SampleFiles.homedir SampleFiles.join (fun _ => true)
             (fun _ => Some SampleFiles.error_off) SampleFiles.JSON_parse
  = mkConfig (mkEvents (JBool true) (JBool false) (JBool true) (JBool true))
             (mkSound (JBool true)).
Proof. reflexivity. Qed.

Lemma loadConfig_falls_back_to_defaults_witness :
  loadConfig SampleFiles.homedir SampleFiles.join (fun _ => false)
             (fun _ => None) SampleFiles.JSON_parse
  = DEFAULT_CONFIG
  /\ loadConfig SampleFiles.homedir SampleFiles.join (fun _ => true)
                (fun _ => Some (lit "{events:")) SampleFiles.JSON_parse
     = DEFAULT_CONFIG
  /\ leaf_of (loadConfig SampleFiles.homedir SampleFiles.join (fun _ => true)
                (fun _ => Some SampleFiles.error_off) SampleFiles.JSON_parse)
             LeafSoundEnabled
     = leaf_of DEFAULT_CONFIG LeafSoundEnabled.
Proof.
  split; [|split].
  - apply (loadConfig_falls_back_to_defaults
             SampleFiles.homedir SampleFiles.join (fun _ => false)
             (fun _ => None) SampleFiles.JSON_parse).
    reflexivity.
  - apply (proj1 (proj2 (proj2 (proj2
             (loadConfig_falls_back_to_defaults
                SampleFiles.homedir SampleFiles.join (fun _ => true)
                (fun _ => Some (lit "{events:")) SampleFiles.JSON_parse))))
             (lit "{events:")); reflexivity.
  - apply (proj2 (proj2 (proj2 (proj2
             (loadConfig_falls_back_to_defaults
                SampleFiles.homedir SampleFiles.join (fun _ => true)
                (fun _ => Some SampleFiles.error_off) SampleFiles.JSON_parse))))
             SampleFiles.error_off
             (JObject [(lit "events", JObject [(lit "error", JBool false)])])
             LeafSoundEnabled); reflexivity.
Defined.

(* ================================================================== *)
(** * Properties: index.ts *)
(* ================================================================== *)

Section GateProperties.

Context {Ext : Type} {shell : Shell Ext}.

Lemma playSound_run (soundId : jsstring) (w : World Ext) :
  playSound soundId w
  = (Fulfilled tt,
     mkWorld (snd (respond (canberra_command soundId) (ext w)))
             (executed w ++ [canberra_command soundId])).
Proof.
  unfold playSound, try_catch, bind, execAsync, ret.
  destruct (respond (canberra_command soundId) (ext w)) as [[out err|e] e'];
    reflexivity.
Qed.

Lemma then_catch_execAsync_run (command : jsstring) (w : World Ext) :
  then_catch (execAsync command) w
  = (match fst (respond command (ext w)) with
     | Failed ExecThrew => Rejected (ExecRejected ExecThrew)
     | _ => Fulfilled tt
     end,
     after command w).
Proof.
  unfold then_catch, execAsync, after.
  destruct (respond command (ext w)) as [[out err|[]] e']; reflexivity.
Qed.

(** [sendNotification] in full: it rejects when [exec] throws on the
    [notify-send] command line, and otherwise fulfils after the sound,
    if one is to be played. *)
Lemma sendNotification_run (t b : jsstring) (options : option SendOptions)
      (w : World Ext) :
  let cmd := notify_send_command t b options in
  sendNotification t b options w
  = match fst (respond cmd (ext w)) with
    | Failed ExecThrew => (Rejected (ExecRejected ExecThrew), after cmd w)
    | _ =>
        (Fulfilled tt,
         match sound_to_play options with
         | Some soundId => after (canberra_command soundId) (after cmd w)
         | None => after cmd w
         end)
    end.
Proof.
  intros cmd. unfold sendNotification. fold cmd. unfold bind.
  rewrite then_catch_execAsync_run.
  assert (Hsound :
            match options with
            | Some o =>
                match opt_playSound o, when_truthy (opt_soundId o) with
                | Some p, Some soundId =>
                    if Json.truthy p then playSound soundId else ret tt
                | _, _ => ret tt
                end
            | None => ret tt
            end (after cmd w)
            = (Fulfilled tt,
               match sound_to_play options with
               | Some soundId => after (canberra_command soundId) (after cmd w)
               | None => after cmd w
               end)).
  { unfold sound_to_play. destruct options as [o|]; [|reflexivity].
    destruct (opt_playSound o) as [p|];
      [|destruct (when_truthy (opt_soundId o)); reflexivity].
    destruct (when_truthy (opt_soundId o)) as [sid|];
      [|destruct (Json.truthy p); reflexivity].
    destruct (Json.truthy p); [|reflexivity].
    rewrite playSound_run. reflexivity. }
  destruct (fst (respond cmd (ext w))) as [out err|[]];
    try exact Hsound; reflexivity.
Qed.

Lemma sendNotification_accepted (t b : jsstring)
      (options : option SendOptions) (w : World Ext) :
  exec_accepts (notify_send_command t b options) w ->
  sendNotification t b options w
  = (Fulfilled tt,
     match sound_to_play options with
     | Some soundId =>
         after (canberra_command soundId)
               (after (notify_send_command t b options) w)
     | None => after (notify_send_command t b options) w
     end).
Proof.
  intros Hok. rewrite sendNotification_run. unfold exec_accepts in Hok.
  destruct (fst (respond (notify_send_command t b options) (ext w)))
    as [out err|[]]; try reflexivity.
  exfalso. apply Hok. reflexivity.
Qed.

Lemma sendNotification_attempt (t b : jsstring)
      (options : option SendOptions) (w : World Ext) :
  exists rest,
    executed (snd (sendNotification t b options w))
    = executed w ++ notify_send_command t b options :: rest.
Proof.
  rewrite sendNotification_run.
  destruct (fst (respond (notify_send_command t b options) (ext w)))
    as [out err|[]];
    try (destruct (sound_to_play options) as [sid|];
         [exists [canberra_command sid]; unfold after; cbn [snd executed];
          rewrite <- app_assoc; reflexivity
         |exists []; reflexivity]).
  exists []. reflexivity.
Qed.

Lemma sound_to_play_gate (st : PluginState Ext) (eventType : EventType)
      (content : NotificationContent) :
  sound_to_play (gate_options st eventType content)
  = if Json.truthy (enabled (sound (config st)))
    then Some (getEventSound eventType) else None.
Proof.
  unfold sound_to_play, gate_options. cbn [opt_playSound opt_soundId].
  rewrite EVENT_SOUNDS_truthy. reflexivity.
Qed.

(** A gate delivery on whose command line [exec] does not throw fulfils,
    after running [notify-send] and then, with the sound on,
    [canberra-gtk-play], whatever becomes of them. *)
Lemma sendNotification_gate_run (st : PluginState Ext)
      (eventType : EventType) (content : NotificationContent)
      (w : World Ext) :
  let cmd := notify_send_command (title content) (body content)
               (gate_options st eventType content) in
  exec_accepts cmd w ->
  exists w',
    sendNotification (title content) (body content)
      (gate_options st eventType content) w = (Fulfilled tt, w')
    /\ executed w'
       = executed w
           ++ cmd :: (if Json.truthy (enabled (sound (config st)))
                      then [canberra_command (getEventSound eventType)]
                      else []).
Proof.
  intros cmd Hok. rewrite sendNotification_accepted by exact Hok.
  rewrite sound_to_play_gate. eexists. split; [reflexivity|].
  destruct (Json.truthy (enabled (sound (config st)))); unfold after;
    cbn [executed]; rewrite <- ?app_assoc; reflexivity.
Qed.

Lemma maybeNotify_disabled (st : PluginState Ext) (eventType : EventType)
      (context : option EventContext) (w : World Ext) :
  Json.truthy (isEventEnabled (config st) eventType) = false ->
  maybeNotify st eventType context w = (Fulfilled tt, w).
Proof. intros H. unfold maybeNotify. rewrite H. reflexivity. Qed.

End GateProperties.

Section GateClaims.

Context {Ext : Type} {shell : Shell Ext}.

Lemma EventType_eqb_eq (a b : EventType) :
  EventType_eqb a b = true -> a = b.
Proof. destruct a, b; simpl; congruence. Qed.

Lemma maybeNotifyAll_without_disabled (st : PluginState Ext)
      (eventType : EventType) :
  Json.truthy (isEventEnabled (config st) eventType) = false ->
  forall calls w,
    maybeNotifyAll st calls w
    = maybeNotifyAll st (without_category eventType calls) w.
Proof.
  intros Hoff calls. induction calls as [|[et ctx] rest IH]; intros w.
  - reflexivity.
  - cbn [without_category filter fst]. fold (without_category eventType rest).
    destruct (EventType_eqb et eventType) eqn:E; cbn [negb].
    + apply EventType_eqb_eq in E. subst et.
      cbn [maybeNotifyAll]. rewrite maybeNotify_disabled by exact Hoff.
      apply IH.
    + cbn [maybeNotifyAll]. apply IH.
Qed.

(** C5: when an event category is disabled in the configuration, a
    gate invocation for it fulfils without running any command, so for
    any series of events of that category the world, and with it the
    number of deliveries, stays as it was; and in a series of events of
    all categories those of the disabled one can be left out without
    any difference.  This holds for every detector and every captured
    identity. *)
Theorem disabled_category_never_delivers (st : PluginState Ext)
        (eventType : EventType) :
  Json.truthy (isEventEnabled (config st) eventType) = false ->
  (forall context w, maybeNotify st eventType context w = (Fulfilled tt, w))
  /\ (forall contexts w,
         maybeNotifyAll st (map (pair eventType) contexts) w = w
         /\ deliveries
              (maybeNotifyAll st (map (pair eventType) contexts) w)
            = deliveries w)
  /\ (forall calls w,
         maybeNotifyAll st calls w
         = maybeNotifyAll st (without_category eventType calls) w).
Proof.
  intros Hoff.
  assert (Hall : forall contexts w,
             maybeNotifyAll st (map (pair eventType) contexts) w = w).
  { induction contexts as [|c rest IH]; intros w; [reflexivity|].
    cbn [map maybeNotifyAll]. rewrite maybeNotify_disabled by exact Hoff.
    apply IH. }
  split; [|split].
  - intros context w. apply maybeNotify_disabled. exact Hoff.
  - intros contexts w. rewrite Hall. split; reflexivity.
  - apply maybeNotifyAll_without_disabled. exact Hoff.
Qed.

(** C6: when [init] gave no identity, the gate dispatches the
    notification of every enabled event: the invocation is the call of
    [sendNotification] with the content of the event, so the
    [notify-send] command line of the event is handed to [exec] in any
    case, and it is the same whichever detector is installed, so
    [isTerminalFocused] has no part in it.  Unless [exec] throws on that
    command line, the invocation fulfils after running the delivery
    commands and nothing else. *)
Theorem no_identity_always_notifies (st : PluginState Ext)
        (eventType : EventType) (context : option EventContext)
        (w : World Ext) :
  terminalId st = None ->
  Json.truthy (isEventEnabled (config st) eventType) = true ->
  let content := getNotificationContent eventType context in
  maybeNotify st eventType context w
  = sendNotification (title content) (body content)
      (gate_options st eventType content) w
  /\ (exists rest,
         executed (snd (maybeNotify st eventType context w))
         = executed w ++ gate_command st eventType context :: rest)
  /\ (exec_accepts (gate_command st eventType context) w ->
      fst (maybeNotify st eventType context w) = Fulfilled tt
      /\ executed (snd (maybeNotify st eventType context w))
         = executed w ++ delivery_commands st eventType context)
  /\ (forall other : FocusDetector Ext,
         maybeNotify (mkPlugin (config st) other (terminalId st))
                     eventType context w
         = maybeNotify st eventType context w).
Proof.
  intros Hnone Hon content.
  assert (Hrun : forall d : FocusDetector Ext,
             maybeNotify (mkPlugin (config st) d (terminalId st))
                         eventType context w
             = sendNotification (title content) (body content)
                 (gate_options st eventType content) w).
  { intros d. unfold maybeNotify. cbn [config terminalId detector].
    rewrite Hon, Hnone. reflexivity. }
  assert (Hst : maybeNotify st eventType context w
                = sendNotification (title content) (body content)
                    (gate_options st eventType content) w).
  { rewrite <- (Hrun (detector st)). destruct st; reflexivity. }
  split; [exact Hst|]. rewrite Hst.
  split; [apply sendNotification_attempt|].
  split.
  - intros Hok.
    destruct (@sendNotification_gate_run _ _ st eventType content w Hok)
      as [w' [Hsend Hlog]].
    rewrite Hsend. split; [reflexivity | exact Hlog].
  - intros other. apply Hrun.
Qed.

End GateClaims.

(** ** Concrete runs of the gate *)

Example plugin_without_xdotool :
  fst (NotificationsPlugin DEFAULT_CONFIG
         (mkEnv (Some (lit "x11")) None None) (Scripted.start []))
  = Fulfilled (mkPlugin DEFAULT_CONFIG X11FocusDetector None).
Proof. reflexivity. Qed.

Example plugin_fallback_identity :
  fst (NotificationsPlugin DEFAULT_CONFIG
         (mkEnv (Some (lit "wayland")) None None) (Scripted.start []))
  = Fulfilled (mkPlugin DEFAULT_CONFIG AlwaysNotifyDetector
                        (Some (lit "unsupported"))).
Proof. reflexivity. Qed.

Example gate_suppresses_when_focused :
  maybeNotify (mkPlugin DEFAULT_CONFIG AlwaysFocusedDetector
                        (Some (lit "window")))
              complete None (Scripted.start [])
  = (Fulfilled tt, Scripted.start []).
Proof. reflexivity. Qed.

Example gate_delivers_when_unfocused :
  executed
    (snd (maybeNotify (mkPlugin DEFAULT_CONFIG X11FocusDetector
                                (Some (lit "4242")))
                      complete None
                      (Scripted.start [Scripted.prints "77"])))
  = [lit "xdotool getactivewindow";
     lit "notify-send -a " +++ quoted (lit "OpenCode")
         +++ lit " -u normal -i " +++ quoted (lit "dialog-information")
         +++ lit " " +++ quoted (lit "OpenCode Ready")
         +++ lit " " +++ quoted (lit "Task completed");
     lit "canberra-gtk-play -i " +++ quoted (lit "dialog-information")].
Proof. reflexivity. Qed.

Lemma disabled_category_never_delivers_witness :
  let st : PluginState Scripted.Script :=
    mkPlugin (mkConfig (mkEvents (JBool true) (JBool false) (JBool true)
                                 (JBool true))
                       (mkSound (JBool true)))
             AlwaysNotifyDetector (Some (lit "unsupported")) in
  let w := Scripted.start [Scripted.prints ""; Scripted.prints ""] in
  Json.truthy (isEventEnabled (config st) error) = false
  /\ maybeNotifyAll st
       [(error, None);
        (error, Some (mkContext (Some (lit "disk full")) None None None None))]
       w
     = w.
Proof.
  intros st w. split; [reflexivity|].
  apply (proj1 (proj2 (@disabled_category_never_delivers _ _ st error
                         eq_refl))
           [None; Some (mkContext (Some (lit "disk full")) None None None None)]
           w).
Defined.

Lemma no_identity_always_notifies_witness :
  let st : PluginState Scripted.Script :=
    mkPlugin DEFAULT_CONFIG RejectingDetector None in
  let w := Scripted.start [Failed (NonZeroExit 1); Failed MissingBinary] in
  terminalId st = None
  /\ Json.truthy (isEventEnabled (config st) question) = true
  /\ exec_accepts (gate_command st question None) w
  /\ fst (maybeNotify st question None w) = Fulfilled tt
  /\ executed (snd (maybeNotify st question None w))
     = executed w ++ delivery_commands st question None.
Proof.
  intros st w.
  assert (Hok : exec_accepts (gate_command st question None) w).
  { unfold exec_accepts. vm_compute. discriminate. }
  split; [reflexivity|]. split; [reflexivity|]. split; [exact Hok|].
  pose proof (@no_identity_always_notifies _ _ st question None w
                eq_refl eq_refl) as [_ [_ [Hdelivers _]]].
  exact (Hdelivers Hok).
Defined.

(* ================================================================== *)
(** * Further properties: notify.ts *)
(* ================================================================== *)

(** ** [escapeShellArg] *)

(** The two passes of [escapeShellArg] as one pass over the input. *)
Lemma escapeShellArg_cons (c : codeunit) (s : jsstring) :
  escapeShellArg (c :: s)
  = (if (c =? BACKSLASH)%N then [BACKSLASH; BACKSLASH]
     else if (c =? DQUOTE)%N then [BACKSLASH; DQUOTE]
     else [c]) ++ escapeShellArg s.
Proof.
  unfold escapeShellArg, replace_unit. cbn [flat_map].
  rewrite flat_map_app.
  destruct (N.eqb_spec c BACKSLASH) as [->|Hb]; [reflexivity|].
  cbn [flat_map app]. rewrite app_nil_r. reflexivity.
Qed.

Lemma escapeShellArg_nil : escapeShellArg [] = [].
Proof. reflexivity. Qed.

(** X1: an escaped argument never closes the double quotes it is put
    between: a shell reading it after the opening quote finds no closing
    quote in it. *)
Theorem escapeShellArg_keeps_quote_open (arg : jsstring) :
  closes_quote (escapeShellArg arg) = false.
Proof.
  induction arg as [|c s IH]; [reflexivity|].
  rewrite escapeShellArg_cons.
  destruct (N.eqb_spec c BACKSLASH) as [->|Hb]; [exact IH|].
  destruct (N.eqb_spec c DQUOTE) as [->|Hq]; [exact IH|].
  cbn [app closes_quote].
  destruct (N.eqb_spec c DQUOTE); [contradiction|].
  destruct (N.eqb_spec c BACKSLASH); [contradiction|].
  exact IH.
Qed.

(** X2: escaping loses nothing: a shell that reads the escaped argument
    between double quotes gets, as far as backslashes and quotes go, the
    argument back. *)
Theorem escapeShellArg_round_trip (arg : jsstring) :
  shell_unescape (escapeShellArg arg) = arg.
Proof.
  induction arg as [|c s IH]; [reflexivity|].
  rewrite escapeShellArg_cons.
  destruct (N.eqb_spec c BACKSLASH) as [->|Hb].
  { cbn. rewrite IH. reflexivity. }
  destruct (N.eqb_spec c DQUOTE) as [->|Hq].
  { cbn. rewrite IH. reflexivity. }
  cbn [app shell_unescape].
  destruct (N.eqb_spec c BACKSLASH); [contradiction|].
  rewrite IH. reflexivity.
Qed.



Example escapeShellArg_sample :
  escapeShellArg (lit "a\b" +++ [DQUOTE] +++ lit "c")
  = lit "a\\b\" +++ [DQUOTE] +++ lit "c".
Proof. reflexivity. Qed.

Example escapeShellArg_dollar :
  escapeShellArg (lit "$(id) `id`") = lit "$(id) `id`".
Proof. reflexivity. Qed.

(** ** [truncate] *)

Lemma fields_no_whitespace (s w : jsstring) (c : codeunit) :
  In w (fields s) -> In c w -> isWhiteSpace c = false.
Proof.
  revert w. induction s as [|x r IH]; intros w Hw Hc.
  - destruct Hw as [<-|[]]. destruct Hc.
  - cbn [fields] in Hw. destruct (isWhiteSpace x) eqn:Ex.
    + destruct Hw as [<-|Hw]; [destruct Hc | exact (IH w Hw Hc)].
    + pose proof (@fields_not_nil r) as Hnn.
      destruct (fields r) as [|w0 ws]; [congruence|].
      destruct Hw as [<-|Hw].
      * destruct Hc as [<-|Hc]; [exact Ex|].
        apply (IH w0); [left; reflexivity | exact Hc].
      * apply (IH w); [right; exact Hw | exact Hc].
Qed.

Lemma spec_clean_whitespace (s : jsstring) (c : codeunit) :
  In c (spec_clean s) -> isWhiteSpace c = true -> c = SPACE.
Proof.
  unfold spec_clean, words, unwords. intros Hin Hws.
  assert (Hword : forall w, In w (filter JsString.truthy (fields s)) ->
                            In c w -> False).
  { intros w Hw Hc. apply filter_In in Hw. destruct Hw as [Hw _].
    rewrite (fields_no_whitespace s w c Hw Hc) in Hws. discriminate. }
  destruct (filter JsString.truthy (fields s)) as [|w ws]; [destruct Hin|].
  apply in_app_or in Hin. destruct Hin as [Hin|Hin].
  - exfalso. apply (Hword w); [left; reflexivity | exact Hin].
  - apply in_flat_map in Hin. destruct Hin as [w' [Hw' Hc]].
    destruct Hc as [<-|Hc]; [reflexivity|].
    exfalso. apply (Hword w'); [right; exact Hw' | exact Hc].
Qed.

Lemma slice_incl (s : jsstring) (a b : Z) (c : codeunit) :
  In c (slice s a b) -> In c s.
Proof.
  unfold slice. destruct (_ <=? _)%Z; [intros []|].
  intros H.
  rewrite <- (firstn_skipn (Z.to_nat (clamp_index (Z.of_nat (List.length s)) a))
                            s).
  apply in_or_app. right.
  match type of H with
  | In _ (firstn ?n ?l) => rewrite <- (firstn_skipn n l)
  end.
  apply in_or_app. left. exact H.
Qed.

Lemma slice_length (s : jsstring) (n : Z) :
  (0 <= n)%Z -> (Z.of_nat (List.length (slice s 0 n)) <= n)%Z.
Proof.
  intros Hn. unfold slice. destruct (_ <=? _)%Z; [simpl; lia|].
  rewrite length_firstn. unfold clamp_index.
  replace (0 <? 0)%Z with false by reflexivity.
  destruct (Z.ltb_spec n 0); lia.
Qed.

(** X4: whatever the cap, the only whitespace [truncate] leaves in its
    result is the plain space: newlines, tabs and the other whitespace
    code units of the input are gone. *)
Theorem truncate_whitespace_is_space (str : jsstring) (maxLength : Z)
        (c : codeunit) :
  In c (truncate str maxLength) -> isWhiteSpace c = true -> c = SPACE.
Proof.
  unfold truncate. rewrite clean_is_spec_clean.
  destruct (_ <=? _)%Z; intros Hin Hws.
  - exact (spec_clean_whitespace _ _ Hin Hws).
  - apply in_app_or in Hin. destruct Hin as [Hin|Hin].
    + apply slice_incl in Hin. exact (spec_clean_whitespace _ _ Hin Hws).
    + exfalso. cbn in Hin.
      destruct Hin as [<-|[<-|[<-|[]]]]; discriminate Hws.
Qed.

Lemma truncate_length (str : jsstring) (maxLength : Z) :
  (1 <= maxLength)%Z ->
  (Z.of_nat (List.length (truncate str maxLength))
   <= maxLength - 1 + Z.of_nat (List.length ELLIPSIS))%Z.
Proof.
  intros Hcap. unfold truncate.
  destruct (Z.leb_spec
              (Z.of_nat (List.length (trim (replace_ws_runs str))))
              maxLength) as [Hle|Hgt].
  - cbn [ELLIPSIS List.length]. lia.
  - rewrite length_app, Nat2Z.inj_add.
    pose proof (@slice_length (trim (replace_ws_runs str)) (maxLength - 1)).
    lia.
Qed.

(** X5: for a cap of at least one the result of [truncate] has at most
    cap-1 code units and the ellipsis marker, and a result without the
    marker at the end has at most cap code units. *)
Theorem truncate_length_bound (str : jsstring) (maxLength : Z) :
  (1 <= maxLength)%Z ->
  (Z.of_nat (List.length (truncate str maxLength))
   <= maxLength - 1 + Z.of_nat (List.length ELLIPSIS))%Z
  /\ ((Z.of_nat (List.length (truncate str maxLength)) <= maxLength)%Z
      \/ exists prefix, truncate str maxLength = prefix +++ ELLIPSIS
                        /\ Z.of_nat (List.length prefix) = (maxLength - 1)%Z).
Proof.
  intros Hcap. split; [apply truncate_length; exact Hcap|].
  unfold truncate.
  destruct (Z.leb_spec
              (Z.of_nat (List.length (trim (replace_ws_runs str))))
              maxLength) as [Hle|Hgt].
  - left. exact Hle.
  - right. eexists. split; [reflexivity|].
    rewrite slice_prefix by lia. rewrite length_firstn. lia.
Qed.

Lemma truncate_length_bound_witness :
  (1 <= 11)%Z
  /\ (Z.of_nat (List.length (truncate (lit "permission  denied") 11))
      <= 11 - 1 + Z.of_nat (List.length ELLIPSIS))%Z.
Proof.
  split; [lia|].
  apply (@truncate_length_bound (lit "permission  denied") 11). lia.
Defined.

Lemma words_all_whitespace (s : jsstring) :
  forallb isWhiteSpace s = true -> words s = [].
Proof.
  unfold words. induction s as [|c r IH]; [reflexivity|].
  cbn [forallb fields]. intros H. apply andb_true_iff in H.
  destruct H as [Hc Hr]. rewrite Hc. cbn [filter JsString.truthy].
  exact (IH Hr).
Qed.

Lemma truncate_all_whitespace (s : jsstring) (maxLength : Z) :
  (0 <= maxLength)%Z -> forallb isWhiteSpace s = true ->
  truncate s maxLength = [].
Proof.
  intros Hcap Hws. unfold truncate. rewrite clean_is_spec_clean.
  unfold spec_clean. rewrite (words_all_whitespace s Hws). cbn.
  destruct (Z.leb_spec 0 maxLength); [reflexivity | lia].
Qed.

(** X6: the formatter tests the raw error message for emptiness and
    cleans it afterwards: an error message that is not empty but holds
    whitespace only gives a notification with an empty body, not the
    default body. *)
Theorem whitespace_error_message_empties_body
        (msg : jsstring) (context : EventContext) :
  errorMessage context = Some msg ->
  msg <> [] ->
  forallb isWhiteSpace msg = true ->
  body (getNotificationContent error (Some context)) = []
  /\ body (getNotificationContent error (Some context))
     <> body (NOTIFICATION_DEFAULTS error).
Proof.
  intros Hmsg Hne Hws. unfold getNotificationContent. cbn [body].
  rewrite Hmsg. destruct msg as [|c r]; [congruence|]. cbn [when_truthy JsString.truthy].
  rewrite truncate_all_whitespace by (try lia; exact Hws).
  split; [reflexivity | discriminate].
Qed.

Lemma whitespace_error_message_empties_body_witness :
  let context := mkContext (Some (lit "  ")) None None None None in
  errorMessage context = Some (lit "  ")
  /\ body (getNotificationContent error (Some context)) = [].
Proof.
  intros context. split; [reflexivity|].
  apply (@whitespace_error_message_empties_body (lit "  ") context);
    [reflexivity | discriminate | reflexivity].
Defined.

(** X7: the body of a completion, error or question notification never
    has more than 99 code units and the ellipsis marker, whatever the
    context holds. *)
Theorem body_length_bound (eventType : EventType)
        (context : option EventContext) :
  eventType <> permission ->
  (List.length (body (getNotificationContent eventType context))
   <= 99 + List.length ELLIPSIS)%nat.
Proof.
  intros Hnp.
  assert (Ht : forall s, (List.length (truncate s 100)
                          <= 99 + List.length ELLIPSIS)%nat).
  { intros s. pose proof (@truncate_length s 100). lia. }
  unfold getNotificationContent.
  destruct context as [context|]; [|destruct eventType; cbn; lia].
  destruct eventType; cbn [body]; try congruence.
  - cbn. lia.
  - destruct (when_truthy (errorMessage context)); [apply Ht | cbn; lia].
  - destruct (when_truthy (questionText context)); [apply Ht|].
    destruct (when_truthy (questionHeader context)); [apply Ht | cbn; lia].
Qed.

Lemma body_length_bound_witness :
  error <> permission
  /\ (List.length
        (body (getNotificationContent error
                 (Some (mkContext (Some (lit "disk full")) None None None
                                  None))))
      <= 99 + List.length ELLIPSIS)%nat.
Proof.
  split; [discriminate|].
  apply (@body_length_bound error
           (Some (mkContext (Some (lit "disk full")) None None None None))).
  discriminate.
Defined.

(* ================================================================== *)
(** * Further properties: focus.ts *)
(* ================================================================== *)

Section ProbeProperties.

Context {Ext : Type} {shell : Shell Ext}.

Lemma runCommand_after (command : jsstring) (w : World Ext) :
  snd (runCommand command w) = after command w.
Proof. rewrite runCommand_run. reflexivity. Qed.

Lemma commandExists_run (cmd : jsstring) (w : World Ext) :
  commandExists cmd w
  = (Fulfilled
       (match fst (respond (lit "which " +++ cmd) (ext w)) with
        | Exited out _ => (0 <? List.length (trim out))%nat
        | Failed _ => false
        end),
     after (lit "which " +++ cmd) w).
Proof.
  unfold commandExists, bind. rewrite runCommand_run. unfold ret, after.
  destruct (fst (respond (lit "which " +++ cmd) (ext w))); reflexivity.
Qed.

(** X8: [commandExists] never rejects and runs the one [which] command;
    it answers [true] exactly when that process succeeds and prints
    something other than whitespace. *)
Theorem commandExists_spec (cmd : jsstring) (w : World Ext) :
  exists found,
    commandExists cmd w = (Fulfilled found, after (lit "which " +++ cmd) w)
    /\ (found = true
        <-> exists out err,
              fst (respond (lit "which " +++ cmd) (ext w)) = Exited out err
              /\ forallb isWhiteSpace out = false).
Proof.
  rewrite commandExists_run. eexists. split; [reflexivity|].
  destruct (fst (respond (lit "which " +++ cmd) (ext w))) as [out err|e].
  - assert (Hlen : (0 <? List.length (trim out))%nat = true
                   <-> forallb isWhiteSpace out = false).
    { unfold trim.
      destruct (trimStart_split out) as [a [Ha Hwa]].
      pose proof (trimEnd_nil (trimStart out)) as Hnil.
      rewrite Ha at 2. rewrite forallb_app, Hwa. cbn [andb].
      destruct (trimEnd (trimStart out)) as [|x t]; cbn.
      - split; [discriminate|]. intros H.
        rewrite (proj1 Hnil eq_refl) in H. discriminate.
      - split; [|reflexivity]. intros _.
        destruct (forallb isWhiteSpace (trimStart out)); [|reflexivity].
        destruct Hnil as [_ Hnil]. discriminate (Hnil eq_refl). }
    rewrite Hlen. split.
    + intros H. exists out, err. split; [reflexivity | exact H].
    + intros [out' [err' [E H]]]. inversion E. subst. exact H.
  - split; [discriminate|]. intros [out [err [E _]]]. discriminate.
Qed.

(** X9: without [xdotool] there is no identity: when the [which xdotool]
    process fails, [init] of the X11 detector yields [null] and has run
    nothing but that one command. *)
Theorem X11_init_without_xdotool (w : World Ext) (e : ExecError) :
  fst (respond (lit "which xdotool") (ext w)) = Failed e ->
  init X11FocusDetector w
  = (Fulfilled None, after (lit "which xdotool") w).
Proof.
  intros Hfail. cbn [init X11FocusDetector]. unfold bind.
  rewrite commandExists_run.
  change (lit "which " +++ lit "xdotool") with (lit "which xdotool").
  rewrite Hfail. reflexivity.
Qed.

(** X10: the identity [init] of the X11 detector captures is the one
    [isTerminalFocused] looks for: if [init] yields an identity and the
    probe of a later check returns what the probe of [init] returned, the
    check answers [true]. *)
Theorem X11_init_then_focused (w w' : World Ext) (terminalId : jsstring) :
  fst (init X11FocusDetector w) = Fulfilled (Some terminalId) ->
  fst (runCommand xdotool_getactivewindow w')
  = fst (runCommand xdotool_getactivewindow (after (lit "which xdotool") w)) ->
  fst (isTerminalFocused X11FocusDetector terminalId w') = Fulfilled true.
Proof.
  cbn [init isTerminalFocused X11FocusDetector]. unfold bind.
  rewrite commandExists_run.
  change (lit "which " +++ lit "xdotool") with (lit "which xdotool").
  destruct (match fst (respond (lit "which xdotool") (ext w)) with
            | Exited out _ => (0 <? List.length (trim out))%nat
            | Failed _ => false
            end); cbn [negb].
  - intros Hinit Hsame. rewrite Hinit in Hsame.
    destruct (runCommand xdotool_getactivewindow w') as [r w1].
    cbn [fst] in Hsame. rewrite Hsame. unfold ret. cbn [fst].
    f_equal. apply strict_eqb_some. reflexivity.
  - intros Hinit. discriminate Hinit.
Qed.

(** X11: [init] of the wrapping detector is [init] of the inner
    detector, run after the [which tmux] probe; whether the probe finds
    [tmux] makes no difference to the identity. *)
Theorem Tmux_init_delegates (paneId : jsstring) (inner : FocusDetector Ext)
        (w : World Ext) :
  init (TmuxFocusDetector paneId inner) w
  = init inner (after (lit "which tmux") w).
Proof.
  cbn [init TmuxFocusDetector]. unfold bind. rewrite commandExists_run.
  change (lit "which " +++ lit "tmux") with (lit "which tmux").
  destruct (match fst (respond (lit "which tmux") (ext w)) with
            | Exited out _ => (0 <? List.length (trim out))%nat
            | Failed _ => false
            end); reflexivity.
Qed.

End ProbeProperties.

(** ** What the detectors of the factory do *)

Section BuiltinProperties.

Context {Ext : Type} {shell : Shell Ext}.

Lemma is_delivery_notify_send (t b : jsstring) (o : option SendOptions) :
  is_delivery (notify_send_command t b o) = true.
Proof. reflexivity. Qed.

Lemma is_delivery_canberra (soundId : jsstring) :
  is_delivery (canberra_command soundId) = false.
Proof. reflexivity. Qed.

Lemma is_delivery_tmux (paneId format : jsstring) :
  is_delivery (tmux_display_message paneId format) = false.
Proof. reflexivity. Qed.

Lemma deliveries_after (command : jsstring) (w : World Ext) :
  deliveries (after command w)
  = deliveries w + (if is_delivery command then 1 else 0).
Proof.
  unfold deliveries, after. cbn [executed].
  rewrite filter_app, length_app. cbn [filter].
  destruct (is_delivery command); reflexivity.
Qed.

Lemma probes_only_refl (w : World Ext) : probes_only w w.
Proof. exists []. rewrite app_nil_r. split; reflexivity. Qed.

Lemma probes_only_after (command : jsstring) (w w' : World Ext) :
  is_delivery command = false ->
  probes_only w w' -> probes_only w (after command w').
Proof.
  intros Hc [cs [Hcs Hall]]. exists (cs ++ [command]).
  unfold after. cbn [executed]. rewrite Hcs, app_assoc. split; [reflexivity|].
  rewrite forallb_app, Hall. cbn. rewrite Hc. reflexivity.
Qed.

Lemma probes_only_trans (w1 w2 w3 : World Ext) :
  probes_only w1 w2 -> probes_only w2 w3 -> probes_only w1 w3.
Proof.
  intros [c1 [H1 A1]] [c2 [H2 A2]]. exists (c1 ++ c2).
  rewrite H2, H1, app_assoc. split; [reflexivity|].
  rewrite forallb_app, A1, A2. reflexivity.
Qed.

Lemma probes_only_deliveries (w w' : World Ext) :
  probes_only w w' -> deliveries w' = deliveries w.
Proof.
  intros [cs [Hcs Hall]]. unfold deliveries. rewrite Hcs, filter_app, length_app.
  assert (Hnone : filter is_delivery cs = []).
  { clear Hcs. induction cs as [|c r IH]; [reflexivity|].
    cbn [forallb filter] in *. apply andb_true_iff in Hall.
    destruct Hall as [Hc Hr]. apply negb_true_iff in Hc. rewrite Hc.
    exact (IH Hr). }
  rewrite Hnone. cbn. lia.
Qed.

Lemma Builtin_isTerminalFocused (d : FocusDetector Ext) :
  Builtin d ->
  forall terminalId w,
  exists focused w',
    isTerminalFocused d terminalId w = (Fulfilled focused, w')
    /\ probes_only w w'.
Proof.
  induction 1 as [| |paneId inner Hinner IH]; intros terminalId w.
  - cbn [isTerminalFocused X11FocusDetector]. unfold bind.
    rewrite runCommand_run. fold (after xdotool_getactivewindow w).
    do 2 eexists. split; [reflexivity|].
    apply probes_only_after; [reflexivity | apply probes_only_refl].
  - exists false, w. split; [reflexivity | apply probes_only_refl].
  - destruct (IH terminalId w) as [b [w1 [Hrun Hp1]]].
    cbn [isTerminalFocused TmuxFocusDetector]. unfold bind. rewrite Hrun.
    destruct b; cbn [negb].
    + rewrite runCommand_run. fold (after (tmux_session_attached paneId) w1).
      assert (Hp2 : probes_only w (after (tmux_session_attached paneId) w1)).
      { apply probes_only_after; [apply is_delivery_tmux | exact Hp1]. }
      destruct (strict_eqb _ (Some (lit "1"))); cbn [negb].
      * rewrite runCommand_run.
        fold (after (tmux_window_active paneId)
                    (after (tmux_session_attached paneId) w1)).
        do 2 eexists. split; [reflexivity|].
        apply probes_only_after; [apply is_delivery_tmux | exact Hp2].
      * do 2 eexists. split; [reflexivity | exact Hp2].
    + do 2 eexists. split; [reflexivity | exact Hp1].
Qed.

Lemma Builtin_init (d : FocusDetector Ext) :
  Builtin d ->
  forall w,
  exists identity w',
    init d w = (Fulfilled identity, w') /\ probes_only w w'.
Proof.
  induction 1 as [| |paneId inner Hinner IH]; intros w.
  - cbn [init X11FocusDetector]. unfold bind. rewrite commandExists_run.
    assert (Hp : probes_only w (after (lit "which " +++ lit "xdotool") w)).
    { apply probes_only_after; [reflexivity | apply probes_only_refl]. }
    destruct (match fst (respond _ (ext w)) with
              | Exited out _ => (0 <? List.length (trim out))%nat
              | Failed _ => false
              end); cbn [negb].
    + rewrite runCommand_run.
      fold (after xdotool_getactivewindow
                  (after (lit "which " +++ lit "xdotool") w)).
      do 2 eexists. split; [reflexivity|].
      apply probes_only_after; [reflexivity | exact Hp].
    + do 2 eexists. split; [reflexivity | exact Hp].
  - do 2 eexists. split; [reflexivity | apply probes_only_refl].
  - assert (Hrun0 : init (TmuxFocusDetector paneId inner) w
                    = init inner (after (lit "which tmux") w)).
    { cbn [init TmuxFocusDetector]. unfold bind. rewrite commandExists_run.
      change (lit "which " +++ lit "tmux") with (lit "which tmux").
      destruct (match fst (respond (lit "which tmux") (ext w)) with
                | Exited out _ => (0 <? List.length (trim out))%nat
                | Failed _ => false
                end); reflexivity. }
    rewrite Hrun0.
    destruct (IH (after (lit "which tmux") w)) as [r [w' [Hrun Hp]]].
    exists r, w'. split; [exact Hrun|].
    eapply probes_only_trans; [|exact Hp].
    apply probes_only_after; [reflexivity | apply probes_only_refl].
Qed.

End BuiltinProperties.

(* ================================================================== *)
(** * Further properties: delivery and the gate *)
(* ================================================================== *)

Section DeliveryProperties.

Context {Ext : Type} {shell : Shell Ext}.

(** X12: [sendNotification] rejects exactly when [exec] throws on the
    [notify-send] command line, and then it has started no sound.  In
    every other case it fulfils, whatever becomes of the child
    processes: it runs the [notify-send] command line first, then the
    sound command exactly when [playSound] is truthy and a sound is
    named, and so makes one delivery. *)
Theorem sendNotification_rejects_iff_exec_throws
        (t b : jsstring) (options : option SendOptions) (w : World Ext) :
  let cmd := notify_send_command t b options in
  (fst (respond cmd (ext w)) = Failed ExecThrew ->
   sendNotification t b options w
   = (Rejected (ExecRejected ExecThrew), after cmd w))
  /\ (exec_accepts cmd w ->
      exists w',
        sendNotification t b options w = (Fulfilled tt, w')
        /\ executed w'
           = executed w
               ++ cmd :: match sound_to_play options with
                         | Some soundId => [canberra_command soundId]
                         | None => []
                         end
        /\ deliveries w' = S (deliveries w)).
Proof.
  intros cmd. split.
  - intros Hthrow. rewrite sendNotification_run. fold cmd.
    rewrite Hthrow. reflexivity.
  - intros Hok. rewrite sendNotification_accepted by exact Hok. fold cmd.
    eexists. split; [reflexivity|].
    destruct (sound_to_play options) as [sid|].
    + split.
      * unfold after. cbn [executed]. rewrite <- app_assoc. reflexivity.
      * rewrite !deliveries_after. unfold cmd.
        rewrite is_delivery_notify_send, is_delivery_canberra. lia.
    + split; [reflexivity|].
      rewrite deliveries_after. unfold cmd.
      rewrite is_delivery_notify_send. lia.
Qed.

(** X27: under Node, which refuses a command line that holds U+0000, a
    notification whose title or body holds U+0000 is never sent:
    [sendNotification] rejects. *)
Theorem null_byte_rejects_notification
        (t b : jsstring) (options : option SendOptions) (w : World Ext) :
  refuses_null_bytes shell ->
  In 0%N t \/ In 0%N b ->
  fst (sendNotification t b options w) = Rejected (ExecRejected ExecThrew).
Proof.
  intros Hnode Hnull.
  assert (Hesc : forall s, In 0%N s -> In 0%N (escapeShellArg s)).
  { induction s as [|c r IH]; intros Hin; [destruct Hin|].
    rewrite escapeShellArg_cons. apply in_or_app.
    destruct Hin as [Hc|Hr]; [|right; exact (IH Hr)].
    left. subst c. left. reflexivity. }
  assert (Hcmd : In 0%N (notify_send_command t b options)).
  { unfold notify_send_command, quoted. rewrite !in_app_iff.
    destruct Hnull as [H|H]; apply Hesc in H; tauto. }
  rewrite sendNotification_run.
  rewrite (Hnode _ (ext w) Hcmd). reflexivity.
Qed.

Lemma maybeNotify_enabled (st : PluginState Ext) (eventType : EventType)
      (context : option EventContext) (w : World Ext) :
  Json.truthy (isEventEnabled (config st) eventType) = true ->
  maybeNotify st eventType context w
  = (focused <-
       match when_truthy (terminalId st) with
       | Some tid => isTerminalFocused (detector st) tid
       | None => ret false
       end ;;
     if focused then ret tt
     else
       let content := getNotificationContent eventType context in
       sendNotification (title content) (body content)
                        (gate_options st eventType content)) w.
Proof. intros H. unfold maybeNotify. rewrite H. reflexivity. Qed.

Lemma gate_delivery_run (st : PluginState Ext) (eventType : EventType)
      (context : option EventContext) (w : World Ext) :
  let content := getNotificationContent eventType context in
  exec_accepts (gate_command st eventType context) w ->
  exists w',
    sendNotification (title content) (body content)
                     (gate_options st eventType content) w
    = (Fulfilled tt, w')
    /\ executed w' = executed w ++ delivery_commands st eventType context
    /\ deliveries w' = S (deliveries w).
Proof.
  intros content Hok.
  destruct (@sendNotification_gate_run _ _ st eventType content w Hok)
    as [w' [Hrun Hlog]].
  exists w'. split; [exact Hrun|]. split; [exact Hlog|].
  unfold deliveries. rewrite Hlog, filter_app, length_app.
  cbn [filter]. rewrite is_delivery_notify_send.
  destruct (Json.truthy _); cbn [filter List.length];
    rewrite ?is_delivery_canberra; cbn; lia.
Qed.

(** X13: with an identity in hand, the gate notifies exactly when the
    detector says the terminal is not focused: for an enabled event and
    a detector that answers [true] the invocation fulfils having run
    nothing after the commands of the detector; for one that answers
    [false] it is the call of [sendNotification] in the state the
    detector left, which, unless [exec] throws on the [notify-send]
    command line, fulfils after the delivery commands. *)
Theorem gate_notifies_iff_not_focused
        (st : PluginState Ext) (tid : jsstring) (eventType : EventType)
        (context : option EventContext) (w w1 : World Ext) (focused : bool) :
  when_truthy (terminalId st) = Some tid ->
  Json.truthy (isEventEnabled (config st) eventType) = true ->
  isTerminalFocused (detector st) tid w = (Fulfilled focused, w1) ->
  (focused = true ->
   maybeNotify st eventType context w = (Fulfilled tt, w1))
  /\ (focused = false ->
      let content := getNotificationContent eventType context in
      maybeNotify st eventType context w
      = sendNotification (title content) (body content)
                         (gate_options st eventType content) w1)
  /\ (focused = false ->
      exec_accepts (gate_command st eventType context) w1 ->
      fst (maybeNotify st eventType context w) = Fulfilled tt
      /\ executed (snd (maybeNotify st eventType context w))
         = executed w1 ++ delivery_commands st eventType context).
Proof.
  intros Htid Hon Hdet. rewrite maybeNotify_enabled by exact Hon.
  unfold bind. rewrite Htid, Hdet.
  split; [intros ->; reflexivity|].
  split; [intros ->; reflexivity|].
  intros -> Hok.
  destruct (@gate_delivery_run st eventType context w1 Hok)
    as [w' [Hrun [Hlog _]]].
  cbv zeta in Hrun. rewrite Hrun. split; [reflexivity | exact Hlog].
Qed.

(** X14: an empty identity counts as none: when the captured identity
    is the empty string, as when the window probe of [init] printed
    nothing, the gate invocation of every enabled event is the call of
    [sendNotification] and is the same whichever detector is installed;
    unless [exec] throws on the [notify-send] command line, it fulfils
    after running the delivery commands and nothing else. *)
Theorem empty_identity_always_notifies
        (st : PluginState Ext) (eventType : EventType)
        (context : option EventContext) (w : World Ext) :
  terminalId st = Some [] ->
  Json.truthy (isEventEnabled (config st) eventType) = true ->
  let content := getNotificationContent eventType context in
  maybeNotify st eventType context w
  = sendNotification (title content) (body content)
                     (gate_options st eventType content) w
  /\ (exec_accepts (gate_command st eventType context) w ->
      fst (maybeNotify st eventType context w) = Fulfilled tt
      /\ executed (snd (maybeNotify st eventType context w))
         = executed w ++ delivery_commands st eventType context)
  /\ (forall other : FocusDetector Ext,
         maybeNotify (mkPlugin (config st) other (terminalId st))
                     eventType context w
         = maybeNotify st eventType context w).
Proof.
  intros Hempty Hon content.
  assert (Hany : forall d : FocusDetector Ext,
             maybeNotify (mkPlugin (config st) d (terminalId st))
                         eventType context w
             = sendNotification (title content) (body content)
                                (gate_options st eventType content) w).
  { intros d. rewrite maybeNotify_enabled by exact Hon.
    cbn [terminalId detector config]. rewrite Hempty. reflexivity. }
  assert (Hst : maybeNotify st eventType context w
                = sendNotification (title content) (body content)
                                   (gate_options st eventType content) w).
  { rewrite <- (Hany (detector st)). destruct st; reflexivity. }
  split; [exact Hst|]. split.
  - intros Hok. rewrite Hst.
    destruct (@gate_delivery_run st eventType context w Hok)
      as [w' [Hrun [Hlog _]]].
    cbv zeta in Hrun. fold content in Hrun. rewrite Hrun.
    split; [reflexivity | exact Hlog].
  - intros other. rewrite Hany, Hst. reflexivity.
Qed.

(** X15: the gate does not catch what the detector throws: when
    [isTerminalFocused] rejects for an enabled event, the invocation
    rejects with the same error in the state the detector left, and
    nothing is delivered. *)
Theorem gate_propagates_detector_rejection
        (st : PluginState Ext) (tid : jsstring) (eventType : EventType)
        (context : option EventContext) (w w1 : World Ext) (e : JsError) :
  when_truthy (terminalId st) = Some tid ->
  Json.truthy (isEventEnabled (config st) eventType) = true ->
  isTerminalFocused (detector st) tid w = (Rejected e, w1) ->
  maybeNotify st eventType context w = (Rejected e, w1).
Proof.
  intros Htid Hon Hdet. rewrite maybeNotify_enabled by exact Hon.
  unfold bind. rewrite Htid, Hdet. reflexivity.
Qed.

End DeliveryProperties.

Lemma gate_notifies_iff_not_focused_witness :
  let st : PluginState Scripted.Script :=
    mkPlugin DEFAULT_CONFIG X11FocusDetector (Some (lit "4242")) in
  let w := Scripted.start [Scripted.prints "77"; Scripted.prints "";
                           Failed TimedOut] in
  let w1 := mkWorld [Scripted.prints ""; Failed TimedOut]
                    [xdotool_getactivewindow] in
  when_truthy (terminalId st) = Some (lit "4242")
  /\ Json.truthy (isEventEnabled (config st) complete) = true
  /\ isTerminalFocused (detector st) (lit "4242") w = (Fulfilled false, w1)
  /\ exec_accepts (gate_command st complete None) w1
  /\ fst (maybeNotify st complete None w) = Fulfilled tt
  /\ executed (snd (maybeNotify st complete None w))
     = executed w1 ++ delivery_commands st complete None.
Proof.
  intros st w w1.
  assert (Hok : exec_accepts (gate_command st complete None) w1).
  { unfold exec_accepts. vm_compute. discriminate. }
  repeat (split; [reflexivity|]). split; [exact Hok|].
  pose proof (@gate_notifies_iff_not_focused _ _ st (lit "4242") complete
                None w w1 false eq_refl eq_refl eq_refl)
    as [_ [_ Hdelivers]].
  exact (Hdelivers eq_refl Hok).
Defined.

Lemma empty_identity_always_notifies_witness :
  let st : PluginState Scripted.Script :=
    mkPlugin DEFAULT_CONFIG AlwaysFocusedDetector (Some []) in
  let w := Scripted.start [] in
  terminalId st = Some []
  /\ Json.truthy (isEventEnabled (config st) error) = true
  /\ exec_accepts (gate_command st error None) w
  /\ fst (maybeNotify st error None w) = Fulfilled tt
  /\ executed (snd (maybeNotify st error None w))
     = executed w ++ delivery_commands st error None.
Proof.
  intros st w.
  assert (Hok : exec_accepts (gate_command st error None) w).
  { unfold exec_accepts. vm_compute. discriminate. }
  repeat (split; [reflexivity|]). split; [exact Hok|].
  pose proof (@empty_identity_always_notifies _ _ st error None w
                eq_refl eq_refl) as [_ [Hdelivers _]].
  exact (Hdelivers Hok).
Defined.

Lemma Scripted_refuses_null_bytes : refuses_null_bytes Scripted.shell.
Proof.
  intros command script Hnull. unfold respond, Scripted.shell.
  assert (Hfound : existsb (N.eqb 0) command = true).
  { apply existsb_exists. exists 0%N. split; [exact Hnull | reflexivity]. }
  rewrite Hfound. reflexivity.
Qed.

Lemma sendNotification_rejects_iff_exec_throws_witness :
  let w := Scripted.start [Scripted.prints ""] in
  sendNotification (lit "OpenCode Error") [98; 0; 109]%N None w
  = (Rejected (ExecRejected ExecThrew),
     after (notify_send_command (lit "OpenCode Error") [98; 0; 109]%N None)
           w)
  /\ exec_accepts (notify_send_command (lit "OpenCode Error") (lit "boom")
                                       None) w
  /\ exists w',
      sendNotification (lit "OpenCode Error") (lit "boom") None w
      = (Fulfilled tt, w')
      /\ deliveries w' = S (deliveries w).
Proof.
  intros w.
  assert (Hok : exec_accepts
                  (notify_send_command (lit "OpenCode Error") (lit "boom")
                                       None) w).
  { unfold exec_accepts. vm_compute. discriminate. }
  split; [|split; [exact Hok|]].
  - apply (proj1 (@sendNotification_rejects_iff_exec_throws _ _
                    (lit "OpenCode Error") [98; 0; 109]%N None w)).
    reflexivity.
  - destruct (proj2 (@sendNotification_rejects_iff_exec_throws _ _
                       (lit "OpenCode Error") (lit "boom") None w) Hok)
      as [w' [Hrun [_ Hone]]].
    exists w'. split; [exact Hrun | exact Hone].
Defined.

Lemma null_byte_rejects_notification_witness :
  refuses_null_bytes Scripted.shell
  /\ (In 0%N (lit "OpenCode Error") \/ In 0%N [98; 0; 109]%N)
  /\ fst (sendNotification (lit "OpenCode Error") [98; 0; 109]%N None
                           (Scripted.start [Scripted.prints ""]))
     = Rejected (ExecRejected ExecThrew).
Proof.
  assert (Hnull : In 0%N (lit "OpenCode Error") \/ In 0%N [98; 0; 109]%N).
  { right. simpl. right. left. reflexivity. }
  split; [exact Scripted_refuses_null_bytes|]. split; [exact Hnull|].
  apply (@null_byte_rejects_notification _ Scripted.shell
           (lit "OpenCode Error") [98; 0; 109]%N None
           (Scripted.start [Scripted.prints ""])
           Scripted_refuses_null_bytes Hnull).
Defined.

Lemma gate_propagates_detector_rejection_witness :
  let st : PluginState Scripted.Script :=
    mkPlugin DEFAULT_CONFIG RejectingDetector (Some (lit "window")) in
  let w := Scripted.start [] in
  when_truthy (terminalId st) = Some (lit "window")
  /\ Json.truthy (isEventEnabled (config st) question) = true
  /\ isTerminalFocused (detector st) (lit "window") w
     = (Rejected (Thrown (lit "isTerminalFocused")), w)
  /\ maybeNotify st question None w
     = (Rejected (Thrown (lit "isTerminalFocused")), w).
Proof.
  intros st w. repeat (split; [reflexivity|]).
  apply (@gate_propagates_detector_rejection _ _ st (lit "window") question
           None w w (Thrown (lit "isTerminalFocused")));
    reflexivity.
Defined.

(** ** The plugin as the factory builds it *)

Section PluginProperties.

Context {Ext : Type} {shell : Shell Ext}.

Lemma createFocusDetector_Builtin (env : Env) :
  Builtin (createFocusDetector env : FocusDetector Ext).
Proof.
  unfold createFocusDetector.
  assert (Hbase : Builtin
                    (if strict_eqb (XDG_SESSION_TYPE env) (Some (lit "x11"))
                        || opt_truthy (DISPLAY env)
                     then X11FocusDetector
                     else AlwaysNotifyDetector : FocusDetector Ext)).
  { destruct (_ || _); constructor. }
  destruct (TMUX_PANE env) as [[|c p]|]; cbn [JsString.truthy];
    try exact Hbase.
  constructor. exact Hbase.
Qed.

(** X16: the detector the factory returns never rejects, in whatever
    environment it was made: [init] and [isTerminalFocused] always
    fulfil, and the commands they run are probes, never a delivery. *)
Theorem factory_detector_never_rejects (env : Env) (w : World Ext) :
  (exists identity w',
      init (createFocusDetector env) w = (Fulfilled identity, w')
      /\ probes_only w w')
  /\ (forall terminalId,
         exists focused w',
           isTerminalFocused (createFocusDetector env) terminalId w
           = (Fulfilled focused, w')
           /\ probes_only w w').
Proof.
  split.
  - apply Builtin_init, createFocusDetector_Builtin.
  - intros terminalId.
    apply Builtin_isTerminalFocused, createFocusDetector_Builtin.
Qed.

(** X17: start-up never rejects and delivers nothing: the plugin always
    comes up holding the loaded configuration, the detector of the
    factory and the identity its [init] gave. *)
Theorem NotificationsPlugin_starts (loaded : NotificationConfig) (env : Env)
        (w : World Ext) :
  exists identity w',
    NotificationsPlugin loaded env w
    = (Fulfilled (mkPlugin loaded (createFocusDetector env) identity), w')
    /\ fst (init (createFocusDetector env) w) = Fulfilled identity
    /\ deliveries w' = deliveries w.
Proof.
  destruct (Builtin_init (createFocusDetector_Builtin env) w)
    as [identity [w' [Hinit Hp]]].
  exists identity, w'.
  unfold NotificationsPlugin, initFocusDetection, bind. rewrite Hinit.
  split; [reflexivity|]. split; [reflexivity|].
  apply probes_only_deliveries. exact Hp.
Qed.

Lemma maybeNotify_builtin_run (st : PluginState Ext) (eventType : EventType)
      (context : option EventContext) (w : World Ext) :
  Builtin (detector st) ->
  exists w',
    (deliveries w' = deliveries w \/ deliveries w' = S (deliveries w))
    /\ (maybeNotify st eventType context w = (Fulfilled tt, w')
        \/ (maybeNotify st eventType context w
            = (Rejected (ExecRejected ExecThrew), w')
            /\ exists w1,
                probes_only w w1
                /\ fst (respond (gate_command st eventType context) (ext w1))
                   = Failed ExecThrew)).
Proof.
  intros Hbuiltin.
  destruct (Json.truthy (isEventEnabled (config st) eventType)) eqn:Hon.
  - rewrite maybeNotify_enabled by exact Hon. unfold bind.
    assert (Hdet : exists focused w1,
               match when_truthy (terminalId st) with
               | Some tid => isTerminalFocused (detector st) tid
               | None => ret false
               end w = (Fulfilled focused, w1)
               /\ probes_only w w1).
    { destruct (when_truthy (terminalId st)) as [tid|].
      - apply (Builtin_isTerminalFocused Hbuiltin).
      - exists false, w. split; [reflexivity | apply probes_only_refl]. }
    destruct Hdet as [focused [w1 [Hrun Hp]]]. rewrite Hrun.
    pose proof (probes_only_deliveries Hp) as Hsame.
    destruct focused.
    + exists w1. split; [left; exact Hsame | left; reflexivity].
    + cbv zeta.
      destruct (fst (respond (gate_command st eventType context) (ext w1)))
        as [out err|e] eqn:Hresp.
      * assert (Hok : exec_accepts (gate_command st eventType context) w1).
        { unfold exec_accepts. rewrite Hresp. discriminate. }
        destruct (@gate_delivery_run _ _ st eventType context w1 Hok)
          as [w' [Hsend [_ Hone]]].
        exists w'. split; [right; rewrite Hone, Hsame; reflexivity|].
        left. exact Hsend.
      * destruct e;
          try (assert (Hok : exec_accepts
                               (gate_command st eventType context) w1)
                 by (unfold exec_accepts; rewrite Hresp; discriminate);
               destruct (@gate_delivery_run _ _ st eventType context w1 Hok)
                 as [w' [Hsend [_ Hone]]];
               exists w';
               split; [right; rewrite Hone, Hsame; reflexivity|];
               left; exact Hsend).
        exists (after (gate_command st eventType context) w1). split.
        -- right. rewrite deliveries_after. unfold gate_command.
           rewrite is_delivery_notify_send, Hsame. lia.
        -- right. split.
           ++ rewrite sendNotification_run. unfold gate_command in Hresp.
              rewrite Hresp. reflexivity.
           ++ exists w1. split; [exact Hp | exact Hresp].
  - exists w. rewrite maybeNotify_disabled by exact Hon.
    split; [left; reflexivity | left; reflexivity].
Qed.

(** X18: with the detector of the factory the gate rejects only when
    [exec] throws on the [notify-send] command line of the event, after
    the probes of the detector; in every other case it fulfils.  One
    invocation hands at most one [notify-send] command line to [exec],
    whatever the configuration, the identity and the event. *)
Theorem gate_rejects_only_on_exec_throw
        (cfg : NotificationConfig) (env : Env)
        (identity : option jsstring) (eventType : EventType)
        (context : option EventContext) (w : World Ext) :
  let st := mkPlugin cfg (createFocusDetector env) identity in
  exists w',
    (deliveries w' = deliveries w \/ deliveries w' = S (deliveries w))
    /\ (maybeNotify st eventType context w = (Fulfilled tt, w')
        \/ (maybeNotify st eventType context w
            = (Rejected (ExecRejected ExecThrew), w')
            /\ exists w1,
                probes_only w w1
                /\ fst (respond (gate_command st eventType context) (ext w1))
                   = Failed ExecThrew)).
Proof.
  intros st. apply maybeNotify_builtin_run. cbn [detector st].
  apply createFocusDetector_Builtin.
Qed.

(** X19: where the factory falls back, every enabled event is
    dispatched without a probe: when the session type is not X11 and
    the display marker is unset or empty, the gate invocation is the
    call of [sendNotification] in the very state it started in, inside
    a multiplexer pane or not and whatever the identity; unless [exec]
    throws on the [notify-send] command line it fulfils after the
    delivery commands and nothing else. *)
Theorem fallback_always_notifies (cfg : NotificationConfig) (env : Env)
        (identity : option jsstring) (eventType : EventType)
        (context : option EventContext) (w : World Ext) :
  strict_eqb (XDG_SESSION_TYPE env) (Some (lit "x11")) = false ->
  opt_truthy (DISPLAY env) = false ->
  Json.truthy (isEventEnabled cfg eventType) = true ->
  let st := mkPlugin cfg (createFocusDetector env) identity in
  let content := getNotificationContent eventType context in
  maybeNotify st eventType context w
  = sendNotification (title content) (body content)
                     (gate_options st eventType content) w
  /\ (exec_accepts (gate_command st eventType context) w ->
      fst (maybeNotify st eventType context w) = Fulfilled tt
      /\ executed (snd (maybeNotify st eventType context w))
         = executed w ++ delivery_commands st eventType context).
Proof.
  intros Hx Hd Hon st content.
  assert (Hquiet : forall tid,
             isTerminalFocused (detector st) tid w = (Fulfilled false, w)).
  { intros tid. subst st. cbn [detector]. unfold createFocusDetector.
    rewrite Hx, Hd. cbn [orb].
    destruct (TMUX_PANE env) as [[|c p]|]; reflexivity. }
  assert (Hdet : match when_truthy (terminalId st) with
                 | Some tid => isTerminalFocused (detector st) tid
                 | None => ret false
                 end w = (Fulfilled false, w)).
  { destruct (when_truthy (terminalId st)); [apply Hquiet | reflexivity]. }
  assert (Hst : maybeNotify st eventType context w
                = sendNotification (title content) (body content)
                                   (gate_options st eventType content) w).
  { rewrite maybeNotify_enabled by exact Hon. unfold bind.
    rewrite Hdet. reflexivity. }
  split; [exact Hst|]. intros Hok. rewrite Hst.
  destruct (@gate_delivery_run _ _ st eventType context w Hok)
    as [w' [Hrun [Hlog _]]].
  cbv zeta in Hrun. fold content in Hrun. rewrite Hrun.
  split; [reflexivity | exact Hlog].
Qed.

End PluginProperties.

Lemma fallback_always_notifies_witness :
  let env := mkEnv (Some (lit "wayland")) None (Some (lit "%3")) in
  let st : PluginState Scripted.Script :=
    mkPlugin DEFAULT_CONFIG (createFocusDetector env)
             (Some (lit "unsupported")) in
  let w := Scripted.start [] in
  strict_eqb (XDG_SESSION_TYPE env) (Some (lit "x11")) = false
  /\ opt_truthy (DISPLAY env) = false
  /\ Json.truthy (isEventEnabled DEFAULT_CONFIG complete) = true
  /\ exec_accepts (gate_command st complete None) w
  /\ executed (snd (maybeNotify st complete None w))
     = executed w ++ delivery_commands st complete None.
Proof.
  intros env st w.
  assert (Hok : exec_accepts (gate_command st complete None) w).
  { unfold exec_accepts. vm_compute. discriminate. }
  repeat (split; [reflexivity|]). split; [exact Hok|].
  pose proof (@fallback_always_notifies _ _ DEFAULT_CONFIG env
                (Some (lit "unsupported")) complete None w
                eq_refl eq_refl eq_refl) as [_ Hdelivers].
  exact (proj2 (Hdelivers Hok)).
Defined.

Lemma X11_init_without_xdotool_witness :
  let w := Scripted.start [Failed (NonZeroExit 1)] in
  fst (respond (lit "which xdotool") (ext w)) = Failed (NonZeroExit 1)
  /\ init X11FocusDetector w
     = (Fulfilled None, mkWorld [] [lit "which xdotool"]).
Proof.
  intros w. split; [reflexivity|].
  exact (@X11_init_without_xdotool _ _ w (NonZeroExit 1) eq_refl).
Defined.

Lemma X11_init_then_focused_witness :
  let w := Scripted.start [Scripted.prints "/usr/bin/xdotool";
                           Scripted.prints "4242"] in
  let w' := Scripted.start [Exited (lit " 4242") []] in
  fst (init X11FocusDetector w) = Fulfilled (Some (lit "4242"))
  /\ fst (isTerminalFocused X11FocusDetector (lit "4242") w')
     = Fulfilled true.
Proof.
  intros w w'. split; [reflexivity|].
  apply (@X11_init_then_focused _ _ w w' (lit "4242")); reflexivity.
Defined.

(* ================================================================== *)
(** * Further properties: config.ts and the gate *)
(* ================================================================== *)

Lemma isEventEnabled_merge (parsed : json) (eventType : EventType) :
  isEventEnabled (merge_with_defaults parsed) eventType
  = Json.nullish (parsed_leaf parsed (leaf_of_event eventType)) (JBool true).
Proof. destruct eventType; reflexivity. Qed.

Section ConfigGateProperties.

Context {Ext : Type} {shell : Shell Ext}.

Variable homedir : jsstring.
Variable join : list jsstring -> jsstring.
Variable existsSync : jsstring -> bool.
Variable readFileSync : jsstring -> option jsstring.
Variable JSON_parse : jsstring -> option json.

Let configPath := getConfigPath homedir join.
Let loaded := loadConfig homedir join existsSync readFileSync JSON_parse.

Lemma loadConfig_parsed (content : jsstring) (parsed : json) :
  existsSync configPath = true ->
  readFileSync configPath = Some content ->
  JSON_parse content = Some parsed ->
  loaded = merge_with_defaults parsed.
Proof.
  subst loaded configPath. unfold loadConfig. intros -> -> ->. reflexivity.
Qed.

(** X20: the loader does not check what the file holds at a category:
    when the file parses, a category is enabled exactly when the value
    at [events.<category>] is missing, [null] or truthy, so that any
    string but the empty one, any number but zero, any array and any
    object enable it as [true] does. *)
Theorem category_enabled_by_truthiness
        (content : jsstring) (parsed : json) (eventType : EventType) :
  existsSync configPath = true ->
  readFileSync configPath = Some content ->
  JSON_parse content = Some parsed ->
  Json.truthy (isEventEnabled loaded eventType)
  = match parsed_leaf parsed (leaf_of_event eventType) with
    | None | Some JNull => true
    | Some value => Json.truthy value
    end.
Proof.
  intros He Hr Hp. rewrite (loadConfig_parsed He Hr Hp).
  rewrite isEventEnabled_merge.
  destruct (parsed_leaf parsed (leaf_of_event eventType)) as [[]|];
    reflexivity.
Qed.

(** X21: a category the file switches off is silent: when the file
    parses and holds [false] at [events.<category>], a gate invocation
    for that category fulfils without running any command, whatever the
    detector, the identity and the context. *)
Theorem file_disables_category
        (content : jsstring) (parsed : json) (eventType : EventType)
        (d : FocusDetector Ext) (identity : option jsstring)
        (context : option EventContext) (w : World Ext) :
  existsSync configPath = true ->
  readFileSync configPath = Some content ->
  JSON_parse content = Some parsed ->
  parsed_leaf parsed (leaf_of_event eventType) = Some (JBool false) ->
  maybeNotify (mkPlugin loaded d identity) eventType context w
  = (Fulfilled tt, w).
Proof.
  intros He Hr Hp Hoff. apply maybeNotify_disabled. cbn [config].
  rewrite (loadConfig_parsed He Hr Hp), isEventEnabled_merge, Hoff.
  reflexivity.
Qed.

End ConfigGateProperties.

Lemma category_enabled_by_truthiness_witness :
  let parsed := JObject [(lit "events",
                          JObject [(lit "error", JString (lit "false"))])] in
  Json.truthy
    (isEventEnabled
       (loadConfig SampleFiles.homedir SampleFiles.join (fun _ => true)
                   (fun _ => Some (lit "file")) (fun _ => Some parsed))
       error)
  = true.
Proof.
  intros parsed.
  apply (@category_enabled_by_truthiness
           SampleFiles.homedir SampleFiles.join (fun _ => true)
           (fun _ => Some (lit "file")) (fun _ => Some parsed)
           (lit "file") parsed error);
    reflexivity.
Defined.

Lemma file_disables_category_witness :
  let w := Scripted.start [Scripted.prints "77"] in
  maybeNotify
    (mkPlugin
       (loadConfig SampleFiles.homedir SampleFiles.join (fun _ => true)
                   (fun _ => Some SampleFiles.error_off)
                   SampleFiles.JSON_parse)
       X11FocusDetector (Some (lit "4242")))
    error None w
  = (Fulfilled tt, w).
Proof.
  intros w.
  apply (@file_disables_category _ _
           SampleFiles.homedir SampleFiles.join (fun _ => true)
           (fun _ => Some SampleFiles.error_off) SampleFiles.JSON_parse
           SampleFiles.error_off
           (JObject [(lit "events", JObject [(lit "error", JBool false)])])
           error X11FocusDetector (Some (lit "4242")) None w);
    reflexivity.
Defined.

(* ================================================================== *)
(** * Further properties: the handlers of index.ts *)
(* ================================================================== *)

Section HandlerProperties.

Context {Ext : Type} {shell : Shell Ext}.

Lemma then_nothing (action : Async Ext unit) (w : World Ext) :
  (action ;;; ret tt) w = action w.
Proof.
  unfold bind, ret. destruct (action w) as [[[]|e] w']; reflexivity.
Qed.

Lemma eqb_false (a b : jsstring) : a <> b -> JsString.eqb a b = false.
Proof. intros H. destruct (eqb_spec a b); [contradiction | reflexivity]. Qed.

(** The five tests of the [event] handler exclude one another. *)
Lemma handle_event_run (st : PluginState Ext) (event : HostEvent)
      (w : World Ext) :
  handle_event st event w
  = match gate_call_of event with
    | Some (eventType, context) => maybeNotify st eventType context w
    | None => (Fulfilled tt, w)
    end.
Proof.
  unfold handle_event, gate_call_of.
  destruct (eqb_spec (ev_type event) (lit "session.idle")) as [E|_].
  { rewrite E. cbn [when_]. apply then_nothing. }
  destruct (eqb_spec (ev_type event) (lit "session.error")) as [E|_].
  { rewrite E. cbn [when_]. apply then_nothing. }
  destruct (eqb_spec (ev_type event) (lit "permission.updated")) as [E|_].
  { rewrite E. cbn [when_]. apply then_nothing. }
  destruct (eqb_spec (ev_type event) (lit "permission.asked")) as [E|_].
  { rewrite E. cbn [when_]. apply then_nothing. }
  destruct (JsString.eqb (ev_type event) (lit "question.asked"));
    reflexivity.
Qed.

(** X22: one application event leads to at most one gate invocation:
    [session.idle] to one for completion, [session.error] to one for
    error with the message of the error, [permission.updated] and
    [permission.asked] to one for permission, [question.asked] to one for
    question with the first question, and an event of any other type to
    none. *)
Theorem handle_event_dispatch (st : PluginState Ext) (event : HostEvent)
        (w : World Ext) :
  handle_event st event w
  = match gate_call_of event with
    | Some (eventType, context) => maybeNotify st eventType context w
    | None => (Fulfilled tt, w)
    end.
Proof. apply handle_event_run. Qed.

(** X23: an event of a type the handler does not know is ignored: the
    handler fulfils and runs no command. *)
Theorem unknown_event_ignored (st : PluginState Ext) (event : HostEvent)
        (w : World Ext) :
  ~ In (ev_type event)
       [lit "session.idle"; lit "session.error"; lit "permission.updated";
        lit "permission.asked"; lit "question.asked"] ->
  handle_event st event w = (Fulfilled tt, w).
Proof.
  intros Hnot. rewrite handle_event_run. unfold gate_call_of.
  rewrite !eqb_false; [reflexivity| | | | |];
    intros E; apply Hnot; rewrite E; cbn; tauto.
Qed.

(** X24: with the detector of the factory the [event] handler rejects
    only when [exec] throws on the [notify-send] command line of the
    gate invocation the event leads to; in every other case it fulfils.
    One application event hands at most one [notify-send] command line
    to [exec]. *)
Theorem handle_event_rejects_only_on_exec_throw
        (cfg : NotificationConfig) (env : Env)
        (identity : option jsstring) (event : HostEvent) (w : World Ext) :
  let st := mkPlugin cfg (createFocusDetector env) identity in
  exists w',
    (deliveries w' = deliveries w \/ deliveries w' = S (deliveries w))
    /\ (handle_event st event w = (Fulfilled tt, w')
        \/ (handle_event st event w
            = (Rejected (ExecRejected ExecThrew), w')
            /\ exists eventType context w1,
                gate_call_of event = Some (eventType, context)
                /\ probes_only w w1
                /\ fst (respond (gate_command st eventType context) (ext w1))
                   = Failed ExecThrew)).
Proof.
  intros st. rewrite handle_event_run.
  destruct (gate_call_of event) as [[eventType context]|].
  - assert (Hb : Builtin (detector st)).
    { cbn [detector st]. apply createFocusDetector_Builtin. }
    destruct (maybeNotify_builtin_run st eventType context w Hb)
      as [w' [Hcount [Hok|[Hrej [w1 [Hp Hthrow]]]]]].
    + exists w'. split; [exact Hcount | left; exact Hok].
    + exists w'. split; [exact Hcount|]. right. split; [exact Hrej|].
      exists eventType, context, w1. repeat split; assumption.
  - exists w. split; [left; reflexivity | left; reflexivity].
Qed.

(** X25: the [permission.ask] hook does what the [event] handler does
    for a [permission.asked] event with the same properties. *)
Theorem permission_hook_is_permission_event
        (st : PluginState Ext) (input : EventProperties) (w : World Ext) :
  handle_permission_ask st input w
  = handle_event st (mkHostEvent (lit "permission.asked") input) w.
Proof. rewrite handle_event_run. reflexivity. Qed.

End HandlerProperties.

(** X26: the body of the notification for a [session.error] event is
    the cleaned message of the error when that is not empty, else the
    cleaned name of the error when that is not empty, else the default
    body; an empty message is passed over like a missing one. *)
Theorem session_error_body (props : EventProperties) :
  let msg := match p_error props with
             | Some e => match err_data e with
                         | Some d => message d
                         | None => None
                         end
             | None => None
             end in
  let name_ := match p_error props with
               | Some e => err_name e
               | None => None
               end in
  body (getNotificationContent error (Some (error_context props)))
  = match msg with
    | Some (c :: m) => truncate (c :: m) 100
    | _ => match name_ with
           | Some (c :: n) => truncate (c :: n) 100
           | _ => lit "An error occurred"
           end
    end.
Proof.
  unfold getNotificationContent, error_context, error_message_of.
  cbn [body errorMessage].
  destruct (p_error props) as [[data name_]|]; [|reflexivity].
  cbn [err_data err_name].
  destruct data as [[[[|c m]|]]|]; destruct name_ as [[|c' n]|];
    reflexivity.
Qed.

Lemma unknown_event_ignored_witness :
  let st : PluginState Scripted.Script :=
    mkPlugin DEFAULT_CONFIG AlwaysNotifyDetector (Some (lit "unsupported")) in
  let event := mkHostEvent (lit "message.updated")
                           (mkProperties None None None None) in
  handle_event st event (Scripted.start [])
  = (Fulfilled tt, Scripted.start []).
Proof.
  intros st event.
  apply (@unknown_event_ignored _ _ st event (Scripted.start [])).
  cbn. intros [H|[H|[H|[H|[H|[]]]]]]; discriminate H.
Defined.

Example session_error_event_run :
  executed
    (snd (handle_event
            (mkPlugin DEFAULT_CONFIG AlwaysNotifyDetector
                      (Some (lit "unsupported")))
            (mkHostEvent (lit "session.error")
               (mkProperties
                  (Some (mkErrorInfo (Some (mkErrorData (Some [])))
                                     (Some (lit "ProviderAuthError"))))
                  None None None))
            (Scripted.start [])))
  = [lit "notify-send -a " +++ quoted (lit "OpenCode")
         +++ lit " -u normal -i " +++ quoted (lit "dialog-error")
         +++ lit " " +++ quoted (lit "OpenCode Error")
         +++ lit " " +++ quoted (lit "ProviderAuthError");
     lit "canberra-gtk-play -i " +++ quoted (lit "dialog-error")].
Proof. reflexivity. Qed.

Lemma truncate_whitespace_is_space_witness :
  In SPACE (truncate [97; 9; 10; 98]%N 10)
  /\ isWhiteSpace SPACE = true
  /\ SPACE = SPACE.
Proof.
  assert (Hin : In SPACE (truncate [97; 9; 10; 98]%N 10)).
  { simpl. right. left. reflexivity. }
  split; [exact Hin|]. split; [reflexivity|].
  apply (@truncate_whitespace_is_space [97; 9; 10; 98]%N 10 SPACE Hin).
  reflexivity.
Defined.
